(** * Customer-service chatbot: routing, NL-to-SQL cleanup and safety gate

    Shallow embedding of [src/chatbot.py], [src/sql_query_system.py] and
    [src/rag_system.py].

    Text is modelled as [string] over 8-bit characters read as ASCII code
    points: [str.upper], [str.lower] and [str.isspace] act on their ASCII
    ranges and every other character is carried through unchanged.  Where
    a property depends on what Python does outside ASCII, the functions are
    embedded a second time, in [Uni], over sequences of code points with
    Python's Unicode tables as parameters.
    External services (the generative model, the SQL engine, the text
    splitter and the vector-index builders) are parameters of the sections
    that use them. *)

From Stdlib Require Import Bool Arith Lia List String Ascii NArith ZArith.
From Stdlib Require Import Numbers.DecimalString.
Import ListNotations.
Local Open Scope string_scope.

(** ** Python string primitives *)

Module PyStr.

Definition LF : ascii := "010"%char.

(** [str.isspace] on one ASCII character: TAB, LF, VT, FF, CR, the four
    separators FS, GS, RS, US, and the space.  The same predicate decides
    [\s] in a [re] pattern and what [str.strip] removes. *)
Definition is_space (c : ascii) : bool :=
  let n := nat_of_ascii c in
  (((9 <=? n) && (n <=? 13)) || ((28 <=? n) && (n <=? 32)))%nat.

Definition upper_char (c : ascii) : ascii :=
  let n := nat_of_ascii c in
  if ((97 <=? n) && (n <=? 122))%nat then ascii_of_nat (n - 32) else c.

Definition lower_char (c : ascii) : ascii :=
  let n := nat_of_ascii c in
  if ((65 <=? n) && (n <=? 90))%nat then ascii_of_nat (n + 32) else c.

Fixpoint smap (f : ascii -> ascii) (s : string) : string :=
  match s with
  | EmptyString => EmptyString
  | String c t => String (f c) (smap f t)
  end.

(** [s.upper()] and [s.lower()]. *)
Definition upper (s : string) : string := smap upper_char s.
Definition lower (s : string) : string := smap lower_char s.

(** [s[n:]] for [n >= 0]. *)
Fixpoint drop (n : nat) (s : string) : string :=
  match n, s with
  | O, _ => s
  | S _, EmptyString => EmptyString
  | S m, String _ t => drop m t
  end.

(** [s[:n]] for [n >= 0]. *)
Fixpoint take (n : nat) (s : string) : string :=
  match n, s with
  | O, _ => EmptyString
  | S _, EmptyString => EmptyString
  | S m, String c t => String c (take m t)
  end.

(** [s.startswith(p)]. *)
Definition startswith (p s : string) : bool := String.prefix p s.

(** [s.endswith(p)]. *)
Definition endswith (p s : string) : bool :=
  (String.length p <=? String.length s)%nat
  && String.eqb (drop (String.length s - String.length p) s) p.

(** [s[:-n]] for [n > 0]. *)
Definition drop_last (n : nat) (s : string) : string :=
  take (String.length s - n) s.

(** [needle in hay]. *)
Fixpoint py_in (needle hay : string) : bool :=
  String.prefix needle hay
  || match hay with
     | EmptyString => false
     | String _ t => py_in needle t
     end.

(** The least [p] at which the rest [s[p:]] of the text satisfies [P]: a
    scan from the left, as [str.find] and [re.search] do it. *)
Fixpoint find_from (P : string -> bool) (s : string) : option nat :=
  if P s then Some O
  else match s with
       | EmptyString => None
       | String _ t => option_map S (find_from P t)
       end.

(** [s.split(sep, 1)[1]]: the text after the first occurrence of [sep]
    ([None] when [sep] does not occur, where Python raises IndexError). *)
Fixpoint split_after (sep s : string) : option string :=
  if String.prefix sep s then Some (drop (String.length sep) s)
  else match s with
       | EmptyString => None
       | String _ t => split_after sep t
       end.

Fixpoint lstrip (s : string) : string :=
  match s with
  | EmptyString => EmptyString
  | String c t => if is_space c then lstrip t else s
  end.

Fixpoint rstrip (s : string) : string :=
  match s with
  | EmptyString => EmptyString
  | String c t =>
      match rstrip t with
      | EmptyString => if is_space c then EmptyString else String c EmptyString
      | r => String c r
      end
  end.

(** [s.strip()]. *)
Definition strip (s : string) : string := rstrip (lstrip s).

(** The text starts with something else than whitespace, or is empty. *)
Definition no_lead (s : string) : bool :=
  match s with
  | EmptyString => true
  | String c _ => negb (is_space c)
  end.

(** ["sep".join(parts)]. *)
Fixpoint join (sep : string) (parts : list string) : string :=
  match parts with
  | [] => EmptyString
  | [p] => p
  | p :: rest => p ++ sep ++ join sep rest
  end.

(** [str(i)] for a non-negative integer. *)
Definition str_of_nat (n : nat) : string :=
  NilEmpty.string_of_uint (Nat.to_uint n).

(** Case-insensitive occurrence: some slice of [s] equals [kw] up to the
    case of its letters. *)
Definition ci_eq (a b : string) : Prop := lower a = lower b.

Definition ci_substring (kw s : string) : Prop :=
  exists pre mid post, s = pre ++ mid ++ post /\ ci_eq mid kw.

End PyStr.

Import PyStr.

(** ** Outcomes of calls that may raise *)

Inductive PyExc : Type :=
| ValueError (msg : string)
| OtherException (msg : string).

Inductive Outcome (A : Type) : Type :=
| Return (a : A)
| Raise (e : PyExc).

Arguments Return {A} a.
Arguments Raise {A} e.

(** ** [src/sql_query_system.py] *)

Module Sql.

(** A cell of a result row ([Any] in the source): the mock rows hold
    integers, strings and float literals. *)
Inductive Value : Type :=
| VInt (z : Z)
| VStr (s : string)
| VFloat (num : Z) (den : positive).

(** A row is a [dict]; its [items()] in insertion order. *)
Definition Row (V : Type) : Type := list (string * V).

(** What [chain.invoke] hands back: a [str], or some other object that the
    [isinstance(sql_query, str)] test lets through untouched. *)
Inductive ChainOutput : Type :=
| Text (s : string)
| NonText.

(** Effects of [execute_query] that reach a backend. *)
Inductive ExecEvent : Type :=
| LiveExecute (sql_query : string)
| MockResults (sql_query : string).

(** *** The pattern: the keyword, then [\s+], then any text, searched
    with IGNORECASE and DOTALL *)

(** The pattern matches at the head of [s]: the keyword's letters in any
    case; what is left of [s] after them is returned. *)
Fixpoint ci_strip_prefix (kw s : string) : option string :=
  match kw, s with
  | EmptyString, _ => Some s
  | String _ _, EmptyString => None
  | String k kw', String c s' =>
      if Ascii.eqb (lower_char k) (lower_char c) then ci_strip_prefix kw' s'
      else None
  end.

(** The keyword and [\s+] match at the head of [s]; the dot-star with
    DOTALL then takes everything up to the end of the text. *)
Definition kw_ws_at (kw s : string) : bool :=
  match ci_strip_prefix kw s with
  | Some (String c _) => is_space c
  | _ => false
  end.

(** [re.search]: the start of the leftmost match, if any.  Group 1 is the
    text from there to the end. *)
Definition re_search_kw (kw s : string) : option nat :=
  find_from (kw_ws_at kw) s.

(** *** The cleanup pass of [natural_language_to_sql] *)

Definition prefixes_to_remove : list string := ["SQL:"; "Query:"; "sql:"; "query:"].

Definition sql_keywords : list string :=
  ["SELECT"; "INSERT"; "UPDATE"; "DELETE"; "WITH"; "CREATE"; "DROP"; "ALTER"].

(** [for prefix in prefixes_to_remove: if startswith: ...; break]. *)
Fixpoint remove_prefix (prefixes : list string) (sql_query : string) : string :=
  match prefixes with
  | [] => sql_query
  | prefix :: rest =>
      if startswith prefix sql_query
      then strip (drop (String.length prefix) sql_query)
      else remove_prefix rest sql_query
  end.

(** [for keyword in sql_keywords: match = re.search(...); if match: ...; break]. *)
Fixpoint extract_statement (keywords : list string) (sql_query : string) : string :=
  match keywords with
  | [] => sql_query
  | keyword :: rest =>
      match re_search_kw keyword sql_query with
      | Some p => strip (drop p sql_query)
      | None => extract_statement rest sql_query
      end
  end.

Definition after_marker (sql_query : string) : string :=
  if py_in "SQLQuery:" sql_query
  then match split_after "SQLQuery:" sql_query with
       | Some rest => strip rest
       | None => sql_query
       end
  else sql_query.

Definition remove_opening_fence (sql_query : string) : string :=
  if startswith "```sql" sql_query then strip (drop 6 sql_query)
  else if startswith "```" sql_query then strip (drop 3 sql_query)
  else sql_query.

Definition remove_closing_fence (sql_query : string) : string :=
  if endswith "```" sql_query then strip (drop_last 3 sql_query)
  else sql_query.

(** Lines 147-167: the text that reaches the keyword search. *)
Definition before_extraction (raw : string) : string :=
  let sql_query := strip raw in
  let sql_query := after_marker sql_query in
  let sql_query := remove_opening_fence sql_query in
  let sql_query := remove_closing_fence sql_query in
  remove_prefix prefixes_to_remove sql_query.

(** Lines 147-178: everything done to a [str] result of the chain. *)
Definition cleanup (raw : string) : string :=
  extract_statement sql_keywords (before_extraction raw).

(** *** Mock mode *)

Definition expiration_template : string :=
  "SELECT contract_id, customer_name, expiration_date FROM contracts WHERE customer_name = 'Customer Name';".

Definition modules_template : string :=
  "
SELECT c.customer_name, m.module_name, cm.purchased_date
FROM contracts c
JOIN contract_modules cm ON c.contract_id = cm.contract_id
JOIN modules m ON cm.module_id = m.module_id
WHERE c.customer_name = 'Customer Name';
".

Definition pricing_template : string :=
  "SELECT customer_name, pricing FROM contracts WHERE customer_name = 'Customer Name';".

Definition default_template : string :=
  "SELECT * FROM contracts WHERE customer_name = 'Customer Name' LIMIT 5;".

Definition _generate_mock_sql (question : string) : string :=
  let question_lower := lower question in
  if py_in "expiration" question_lower || py_in "expires" question_lower
  then expiration_template
  else if py_in "modules" question_lower || py_in "purchased" question_lower
  then modules_template
  else if py_in "pricing" question_lower || py_in "cost" question_lower
  then pricing_template
  else default_template.

Definition _generate_mock_results (sql_query : string) : list (Row Value) :=
  if py_in "modules" (lower sql_query) then
    [ [("customer_name", VStr "ACME Corp");
       ("module_name", VStr "Inventory Management");
       ("purchased_date", VStr "2023-01-15")];
      [("customer_name", VStr "ACME Corp");
       ("module_name", VStr "Reporting Suite");
       ("purchased_date", VStr "2023-03-22")] ]
  else if py_in "expiration" (lower sql_query) then
    [ [("contract_id", VInt 12345);
       ("customer_name", VStr "ACME Corp");
       ("expiration_date", VStr "2024-12-31")] ]
  else if py_in "pricing" (lower sql_query) then
    [ [("customer_name", VStr "ACME Corp");
       ("pricing", VFloat 25000 1)] ]
  else
    [ [("contract_id", VInt 12345);
       ("customer_name", VStr "ACME Corp");
       ("expiration_date", VStr "2024-12-31");
       ("pricing", VFloat 25000 1);
       ("status", VStr "Active")] ].

(** *** The safety gate *)

Definition unsafe_keywords : list string :=
  ["INSERT"; "UPDATE"; "DELETE"; "DROP"; "ALTER"; "CREATE"; "TRUNCATE"].

Definition _is_safe_query (sql_query : string) : bool :=
  let query_upper := upper sql_query in
  negb (existsb (fun keyword => py_in keyword query_upper) unsafe_keywords).

Definition unsafe_message : string :=
  "Query contains unsafe operations (INSERT, UPDATE, DELETE, DROP)".

(** *** The system object and the calls that use its backends *)

Section System.

Variables Engine Db LLM : Type.

(** [create_sql_query_chain(llm, self.db).invoke({"question": question})]. *)
Variable run_chain : LLM -> Db -> string -> Outcome ChainOutput.

(** [connection.execute(text(sql_query))] with the rows turned into dicts. *)
Variable connection_execute : Engine -> string -> Outcome (list (Row Value)).

Record SQLQuerySystem : Type := {
  engine : option Engine;
  db : option Db;
  schema_description : string
}.

Definition natural_language_to_sql
    (self : SQLQuerySystem) (question : string) (llm : LLM) : ChainOutput :=
  match db self with
  | None => Text (_generate_mock_sql question)
  | Some d =>
      match run_chain llm d question with
      | Return (Text raw) => Text (cleanup raw)
      | Return NonText => NonText
      | Raise _ => Text ""
      end
  end.

(** The outcome, and the backend calls made on the way. *)
Definition execute_query
    (self : SQLQuerySystem) (sql_query : string)
  : Outcome (list (Row Value)) * list ExecEvent :=
  if negb (_is_safe_query sql_query) then (Raise (ValueError unsafe_message), [])
  else match engine self with
       | None => (Return (_generate_mock_results sql_query), [MockResults sql_query])
       | Some e =>
           match connection_execute e sql_query with
           | Return rows => (Return rows, [LiveExecute sql_query])
           | Raise _ => (Return [], [LiveExecute sql_query])
           end
       end.

End System.

Arguments engine {Engine Db} _.
Arguments db {Engine Db} _.
Arguments natural_language_to_sql {Engine Db LLM} run_chain self question llm.
Arguments execute_query {Engine Db} connection_execute self sql_query.

(** *** [format_results] *)

Section Format.

Variable V : Type.

(** [str(value)] as the f-string applies it. *)
Variable str : V -> string.

(** [enumerate(results, start)]. *)
Fixpoint enumerate (start : nat) (results : list (Row V)) : list (nat * Row V) :=
  match results with
  | [] => []
  | r :: rest => (start, r) :: enumerate (S start) rest
  end.

Definition flat_line (kv : string * V) : string :=
  fst kv ++ ": " ++ str (snd kv).

Definition indented_line (kv : string * V) : string :=
  "  " ++ fst kv ++ ": " ++ str (snd kv).

Definition header_line (i : nat) : string :=
  String LF ("Result " ++ str_of_nat i ++ ":").

(** The body of the outer [for]: two kinds of [formatted.append]. *)
Definition append_block (formatted : list string) (ir : nat * Row V) : list string :=
  fold_left (fun acc kv => (acc ++ [indented_line kv])%list)
            (snd ir)
            (formatted ++ [header_line (fst ir)])%list.

Definition format_results (results : list (Row V)) : string :=
  match results with
  | [] => "No results found."
  | [result] => join (String LF "") (map flat_line result)
  | _ => join (String LF "") (fold_left append_block (enumerate 1 results) [])
  end.

End Format.

Arguments enumerate {V} start results.
Arguments flat_line {V} str kv.
Arguments indented_line {V} str kv.
Arguments append_block {V} str formatted ir.
Arguments format_results {V} str results.

End Sql.

(** ** [src/chatbot.py] *)

Module Chatbot.

Inductive IntentType : Type :=
| USER_GUIDE
| CONTRACT_INFO
| GENERAL.

(** [self.intent_keywords], as [ConfigLoader.get_intent_keywords] builds it. *)
Record IntentKeywords : Type := {
  user_guide : list string;
  contract : list string
}.

(** [sum(1 for keyword in keywords if keyword.lower() in query_lower)]. *)
Definition keyword_score (keywords : list string) (query_lower : string) : nat :=
  list_sum (map (fun _ => 1)
                (filter (fun keyword => py_in (lower keyword) query_lower) keywords)).

Definition classify_intent (intent_keywords : IntentKeywords) (query : string)
  : IntentType :=
  let query_lower := lower query in
  let user_guide_score := keyword_score (user_guide intent_keywords) query_lower in
  let contract_score := keyword_score (contract intent_keywords) query_lower in
  if (user_guide_score <? contract_score)%nat then CONTRACT_INFO
  else if (0 <? user_guide_score)%nat then USER_GUIDE
  else GENERAL.

(** *** Conversation memory

    [ConversationBufferWindowMemory] is LangChain's class, not code of this
    repository.  The model follows the library: [save_context] appends one
    [HumanMessage] and one [AIMessage] to the stored messages, and the
    [history] that [load_memory_variables] returns with
    [return_messages=True] is [messages[-k * 2:]] when [k > 0], and empty
    otherwise. *)

Inductive Message : Type :=
| HumanMessage (content : string)
| AIMessage (content : string)
| SystemMessage (content : string).

Record ConversationBufferWindowMemory : Type := {
  k : Z;
  messages : list Message
}.

Definition save_context (memory : ConversationBufferWindowMemory)
    (input output : string) : ConversationBufferWindowMemory :=
  {| k := k memory;
     messages := (messages memory ++ [HumanMessage input; AIMessage output])%list |}.

Definition load_history (memory : ConversationBufferWindowMemory) : list Message :=
  if (0 <? k memory)%Z
  then skipn (List.length (messages memory) - Z.to_nat (k memory * 2)) (messages memory)
  else [].

(** The [chatbot] section of the configuration. *)
Record ChatbotConfig : Type := {
  enable_conversation_memory : option bool;
  max_history_length : option Z
}.

Definition _initialize_memory (chatbot_config : ChatbotConfig)
  : option ConversationBufferWindowMemory :=
  if match enable_conversation_memory chatbot_config with
     | Some b => b
     | None => true
     end
  then let max_history :=
         match max_history_length chatbot_config with
         | Some n => n
         | None => 10%Z
         end in
       Some {| k := max_history; messages := [] |}
  else None.

(** One entry of the list that [get_conversation_history] returns. *)
Record HistoryEntry : Type := {
  role : string;
  content : string
}.

Record CustomerServiceChatbot : Type := {
  intent_keywords : IntentKeywords;
  memory : option ConversationBufferWindowMemory
}.

Definition history_entries (msg : Message) : list HistoryEntry :=
  match msg with
  | HumanMessage c => [{| role := "user"; content := c |}]
  | AIMessage c => [{| role := "assistant"; content := c |}]
  | SystemMessage _ => []
  end.

Definition get_conversation_history (self : CustomerServiceChatbot)
  : list HistoryEntry :=
  match memory self with
  | None => []
  | Some m => flat_map history_entries (load_history m)
  end.

Record Response : Type := {
  resp_query : string;
  resp_intent : IntentType;
  resp_answer : string
}.

Section Orchestrator.

(** The content of the model's reply to the classification prompt. *)
Variable llm_classification : string -> Outcome string.

(** The three handlers; each ends in a call of the generative model.
    [handle_contract_query] catches every exception itself. *)
Variable handle_user_guide_query : string -> Outcome string.
Variable handle_contract_query : string -> string.
Variable handle_general_query : string -> Outcome string.

Definition classify_intent_with_llm (self : CustomerServiceChatbot) (query : string)
  : IntentType :=
  match llm_classification query with
  | Return reply =>
      let classification := upper (strip reply) in
      if py_in "USER_GUIDE" classification then USER_GUIDE
      else if py_in "CONTRACT" classification then CONTRACT_INFO
      else GENERAL
  | Raise _ => classify_intent (intent_keywords self) query
  end.

Definition process_query (self : CustomerServiceChatbot) (query : string)
    (use_llm_classification : bool)
  : Outcome Response * CustomerServiceChatbot :=
  let intent :=
    if use_llm_classification then classify_intent_with_llm self query
    else classify_intent (intent_keywords self) query in
  let answered :=
    match intent with
    | USER_GUIDE => handle_user_guide_query query
    | CONTRACT_INFO => Return (handle_contract_query query)
    | GENERAL => handle_general_query query
    end in
  match answered with
  | Raise e => (Raise e, self)
  | Return answer =>
      (Return {| resp_query := query; resp_intent := intent; resp_answer := answer |},
       {| intent_keywords := intent_keywords self;
          memory := option_map (fun m => save_context m query answer) (memory self) |})
  end.

(** A run of requests one after the other; [None] as soon as one of them
    raises instead of completing. *)
Fixpoint process_all (self : CustomerServiceChatbot) (queries : list string)
  : option (list Response * CustomerServiceChatbot) :=
  match queries with
  | [] => Some ([], self)
  | q :: rest =>
      match process_query self q false with
      | (Raise _, _) => None
      | (Return r, self') =>
          match process_all self' rest with
          | Some (rs, final) => Some (r :: rs, final)
          | None => None
          end
      end
  end.

End Orchestrator.

(** What one completed request stores, and how the history shows it. *)
Definition exchange_messages (r : Response) : list Message :=
  [HumanMessage (resp_query r); AIMessage (resp_answer r)].

Definition exchange_entries (r : Response) : list HistoryEntry :=
  [{| role := "user"; content := resp_query r |};
   {| role := "assistant"; content := resp_answer r |}].

End Chatbot.

(** ** [src/rag_system.py] *)

Module Rag.

Record VectorConfig : Type := {
  store_type : option string;
  chunk_size : option Z;
  chunk_overlap : option Z;
  persist_directory : option string;
  collection_name : option string
}.

Definition get {A : Type} (field : option A) (default : A) : A :=
  match field with
  | Some a => a
  | None => default
  end.

Inductive BuildEvent : Type :=
| SplitDocuments
| ChromaFromDocuments
| FaissFromDocuments
| FaissSaveLocal.

Definition no_documents_message : string :=
  "No documents loaded. Call load_documents() first.".

Section Store.

Variables Document VectorStore : Type.

(** [RecursiveCharacterTextSplitter(chunk_size, chunk_overlap).split_documents]. *)
Variable split_documents : Z -> Z -> list Document -> Outcome (list Document).

(** [Chroma.from_documents(chunks, embeddings, persist_directory, collection_name)]. *)
Variable chroma_from_documents :
  list Document -> string -> string -> Outcome VectorStore.

(** [FAISS.from_documents(chunks, embeddings)] and [save_local]. *)
Variable faiss_from_documents : list Document -> Outcome VectorStore.
Variable faiss_save_local : VectorStore -> string -> Outcome unit.

Record RAGSystem : Type := {
  vector_config : VectorConfig;
  vector_store : option VectorStore;
  documents : list Document
}.

Definition set_vector_store (self : RAGSystem) (vs : VectorStore) : RAGSystem :=
  {| vector_config := vector_config self;
     vector_store := Some vs;
     documents := documents self |}.

Definition _create_chroma_store (self : RAGSystem) (chunks : list Document)
  : Outcome unit * RAGSystem * list BuildEvent :=
  let dir := get (persist_directory (vector_config self)) "./data/vector_db" in
  let coll := get (collection_name (vector_config self)) "user_guides" in
  match chroma_from_documents chunks dir coll with
  | Raise e => (Raise e, self, [ChromaFromDocuments])
  | Return vs => (Return tt, set_vector_store self vs, [ChromaFromDocuments])
  end.

Definition _create_faiss_store (self : RAGSystem) (chunks : list Document)
  : Outcome unit * RAGSystem * list BuildEvent :=
  match faiss_from_documents chunks with
  | Raise e => (Raise e, self, [FaissFromDocuments])
  | Return vs =>
      let dir := get (persist_directory (vector_config self)) "./data/vector_db" in
      (faiss_save_local vs dir, set_vector_store self vs,
       [FaissFromDocuments; FaissSaveLocal])
  end.

(** The outcome, the object afterwards, and the index-building calls made. *)
Definition create_vector_store (self : RAGSystem)
  : Outcome unit * RAGSystem * list BuildEvent :=
  match documents self with
  | [] => (Raise (ValueError no_documents_message), self, [])
  | _ :: _ =>
      let size := get (chunk_size (vector_config self)) 1000%Z in
      let overlap := get (chunk_overlap (vector_config self)) 200%Z in
      match split_documents size overlap (documents self) with
      | Raise e => (Raise e, self, [SplitDocuments])
      | Return chunks =>
          let ty := lower (get (store_type (vector_config self)) "chromadb") in
          let '(out, self', evs) :=
            if String.eqb ty "chromadb" then _create_chroma_store self chunks
            else if String.eqb ty "faiss" then _create_faiss_store self chunks
            else (Raise (ValueError ("Unsupported vector store type: " ++ ty)), self, [])
          in (out, self', SplitDocuments :: evs)
      end
  end.

End Store.

Arguments vector_config {Document VectorStore} _.
Arguments vector_store {Document VectorStore} _.
Arguments documents {Document VectorStore} _.
Arguments create_vector_store {Document VectorStore}
  split_documents chroma_from_documents faiss_from_documents faiss_save_local self.

End Rag.

(** ** Notions used to state the properties *)

Module Described.

Import Sql Chatbot.

(** The number of keywords of a list that occur in the query as
    case-insensitive substrings, a keyword listed twice counting twice. *)
Inductive MatchCount (query : string) : list string -> nat -> Prop :=
| MatchCount_nil : MatchCount query [] 0
| MatchCount_hit kw kws n :
    ci_substring kw query -> MatchCount query kws n ->
    MatchCount query (kw :: kws) (S n)
| MatchCount_miss kw kws n :
    ~ ci_substring kw query -> MatchCount query kws n ->
    MatchCount query (kw :: kws) n.

(** Some recognized statement keyword stands at the head of [s], in any case. *)
Definition keyword_at (s : string) : bool :=
  existsb (fun kw => match ci_strip_prefix kw s with
                     | Some _ => true
                     | None => false
                     end) sql_keywords.

(** The position of the earliest case-insensitive occurrence of any
    recognized statement keyword. *)
Definition first_keyword_pos (s : string) : option nat :=
  find_from keyword_at s.

(** The same, counting only occurrences that whitespace follows. *)
Definition keyword_ws_at (s : string) : bool :=
  existsb (fun kw => kw_ws_at kw s) sql_keywords.

Definition first_keyword_ws_pos (s : string) : option nat :=
  find_from keyword_ws_at s.

(** The text that the cleanup example of the specification starts from. *)
Definition fenced_example : string :=
  "Explanation..." ++ String LF ("```sql" ++ String LF
    ("SELECT * FROM contracts;" ++ String LF "```")).

(** The per-row blocks of the multi-row layout, one after the other. *)
Definition numbered_blocks {V : Type} (str : V -> string) (results : list (Row V))
  : list string :=
  flat_map (fun ir => header_line (fst ir) :: map (indented_line str) (snd ir))
           (combine (seq 1 (List.length results)) results).

End Described.

(** ** [src/sql_query_system.py]: construction and the composed calls *)

Module SqlSystem.

Import Sql.

(** The [sql_database] section of the configuration, as the constructor
    reads it with [dict.get]. *)
Record SqlConfig : Type := {
  cfg_type : option string;
  cfg_host : option string;
  cfg_port : option Z;
  cfg_database : option string;
  cfg_username : option string;
  cfg_password : option string;
  cfg_schema_description : option string
}.

(** [str(n)] for an integer. *)
Definition str_of_Z (z : Z) : string := NilEmpty.string_of_int (Z.to_int z).

(** [str(e)] for an exception built from one message. *)
Definition exc_message (e : PyExc) : string :=
  match e with
  | ValueError msg => msg
  | OtherException msg => msg
  end.

Definition _build_postgres_connection_string (config : SqlConfig) : string :=
  let host := Rag.get (cfg_host config) "localhost" in
  let port := Rag.get (cfg_port config) 5432%Z in
  let database := Rag.get (cfg_database config) "" in
  let username := Rag.get (cfg_username config) "" in
  let password := Rag.get (cfg_password config) "" in
  "postgresql://" ++ username ++ ":" ++ password ++ "@" ++ host ++ ":"
    ++ str_of_Z port ++ "/" ++ database.

Definition _build_mysql_connection_string (config : SqlConfig) : string :=
  let host := Rag.get (cfg_host config) "localhost" in
  let port := Rag.get (cfg_port config) 3306%Z in
  let database := Rag.get (cfg_database config) "" in
  let username := Rag.get (cfg_username config) "" in
  let password := Rag.get (cfg_password config) "" in
  "mysql+pymysql://" ++ username ++ ":" ++ password ++ "@" ++ host ++ ":"
    ++ str_of_Z port ++ "/" ++ database.

Definition _build_sqlite_connection_string (config : SqlConfig) : string :=
  let database := Rag.get (cfg_database config) "contracts.db" in
  "sqlite:///" ++ database.

Section Construction.

Variables Engine Db LLM : Type.

(** [create_engine(connection_string)] and [SQLDatabase(engine)]. *)
Variable create_engine : string -> Outcome Engine.
Variable SQLDatabase : Engine -> Outcome Db.

(** [self.db.get_table_info()]. *)
Variable db_get_table_info : Db -> Outcome string.

Variable run_chain : LLM -> Db -> string -> Outcome ChainOutput.
Variable connection_execute : Engine -> string -> Outcome (list (Row Value)).

(** [str(value)] on a cell. *)
Variable str : Value -> string.

(** What [sql_query.upper()] raises when the chain handed back something
    that is not a [str]. *)
Variable not_a_string : PyExc.

(** The [engine] and [db] that [_initialize_connection] leaves in [self]. *)
Definition _initialize_connection (config : SqlConfig)
  : Outcome (option Engine * option Db) :=
  let db_type := lower (Rag.get (cfg_type config) "postgresql") in
  let connection :=
    if String.eqb db_type "postgresql"
    then Return (_build_postgres_connection_string config)
    else if String.eqb db_type "mysql"
    then Return (_build_mysql_connection_string config)
    else if String.eqb db_type "sqlite"
    then Return (_build_sqlite_connection_string config)
    else Raise (ValueError ("Unsupported database type: " ++ db_type)) in
  match connection with
  | Raise e => Raise e
  | Return connection_string =>
      match create_engine connection_string with
      | Raise _ => Return (None, None)
      | Return e =>
          match SQLDatabase e with
          | Raise _ => Return (None, None)
          | Return d => Return (Some e, Some d)
          end
      end
  end.

(** [SQLQuerySystem(sql_config)]. *)
Definition init (sql_config : SqlConfig) : Outcome (SQLQuerySystem Engine Db) :=
  match _initialize_connection sql_config with
  | Raise e => Raise e
  | Return (e, d) =>
      Return {| engine := e; db := d;
                schema_description :=
                  Rag.get (cfg_schema_description sql_config) "" |}
  end.

Definition get_table_info (self : SQLQuerySystem Engine Db) : string :=
  match db self with
  | None => schema_description _ _ self
  | Some d =>
      match db_get_table_info d with
      | Return info => info
      | Raise e =>
          "Unable to retrieve table info: " ++ exc_message e
            ++ String LF (String LF (schema_description _ _ self))
      end
  end.

Definition test_connection (self : SQLQuerySystem Engine Db) : bool :=
  match engine self with
  | None => false
  | Some e =>
      match connection_execute e "SELECT 1" with
      | Return _ => true
      | Raise _ => false
      end
  end.

(** The pair [(sql_query, formatted_results)], and the backend calls made. *)
Definition query_and_format (self : SQLQuerySystem Engine Db)
    (question : string) (llm : LLM)
  : Outcome (string * string) * list ExecEvent :=
  match natural_language_to_sql run_chain self question llm with
  | NonText => (Raise not_a_string, [])
  | Text sql_query =>
      match execute_query connection_execute self sql_query with
      | (Raise e, events) => (Raise e, events)
      | (Return results, events) =>
          (Return (sql_query, format_results str results), events)
      end
  end.

End Construction.

Arguments _initialize_connection {Engine Db} create_engine SQLDatabase config.
Arguments init {Engine Db} create_engine SQLDatabase sql_config.
Arguments get_table_info {Engine Db} db_get_table_info self.
Arguments test_connection {Engine Db} connection_execute self.
Arguments query_and_format {Engine Db LLM} run_chain connection_execute str
  not_a_string self question llm.

End SqlSystem.

(** ** [src/rag_system.py]: ingestion, loading and retrieval *)

Module Ingestion.

Import Rag.

(** The [documents] section of the configuration. *)
Record DocumentsConfig : Type := {
  user_guides_path : option string;
  supported_formats : option (list string)
}.

(** One path that [rglob] yields: [str(file_path)], [file_path.suffix] and
    [file_path.is_file()]. *)
Record FileEntry : Type := {
  file_path : string;
  suffix : string;
  is_file : bool
}.

Inductive Loader : Type :=
| TextLoader
| PyPDFLoader
| UnstructuredMarkdownLoader
| UnstructuredHTMLLoader.

(** The [loaders] dict of [_load_single_document]. *)
Definition loaders : list (string * Loader) :=
  [(".txt", TextLoader); (".pdf", PyPDFLoader);
   (".md", UnstructuredMarkdownLoader); (".html", UnstructuredHTMLLoader)].

(** [d[key]] on the items of a dict with distinct keys. *)
Fixpoint lookup {A : Type} (key : string) (items : list (string * A)) : option A :=
  match items with
  | [] => None
  | (k, v) :: rest => if String.eqb key k then Some v else lookup key rest
  end.

(** [x in xs] for a list of strings. *)
Definition mem (x : string) (xs : list string) : bool :=
  existsb (String.eqb x) xs.

(** [enumerate(items, start)]. *)
Fixpoint enumerate_from {A : Type} (start : nat) (items : list A) : list (nat * A) :=
  match items with
  | [] => []
  | a :: rest => (start, a) :: enumerate_from (S start) rest
  end.

Definition not_initialized_message : string :=
  "Vector store not initialized. Call create_vector_store() or load_existing_vector_store().".

Section Pipeline.

Variables Document VectorStore : Type.

(** The entries under a directory; [None] when the path does not exist. *)
Variable rglob : string -> option (list FileEntry).

(** [str(Path(p))]. *)
Variable path_str : string -> string.

(** [loader_class(str(file_path)).load()]. *)
Variable run_loader : Loader -> string -> Outcome (list Document).

Variable split_documents : Z -> Z -> list Document -> Outcome (list Document).
Variable chroma_from_documents :
  list Document -> string -> string -> Outcome VectorStore.
Variable faiss_from_documents : list Document -> Outcome VectorStore.
Variable faiss_save_local : VectorStore -> string -> Outcome unit.

(** [Chroma(persist_directory, embedding_function, collection_name)] and
    [FAISS.load_local(persist_directory, embeddings)]. *)
Variable chroma_open : string -> string -> Outcome VectorStore.
Variable faiss_load_local : string -> Outcome VectorStore.

(** [vector_store.similarity_search(query, k=k)]. *)
Variable similarity_search : VectorStore -> string -> nat -> Outcome (list Document).

(** [doc.page_content] and [doc.metadata.get('source')]. *)
Variable page_content : Document -> string.
Variable metadata_source : Document -> option string.

Definition _load_single_document (f : FileEntry) : Outcome (list Document) :=
  let suffix := lower (suffix f) in
  match lookup suffix loaders with
  | None => Raise (ValueError ("Unsupported file format: " ++ suffix))
  | Some loader => run_loader loader (file_path f)
  end.

(** The body of the [for] over [rglob('*')]. *)
Definition load_step (supported : list string)
    (loaded_docs : list Document) (f : FileEntry) : list Document :=
  if is_file f && mem (suffix f) supported
  then match _load_single_document f with
       | Return docs => (loaded_docs ++ docs)%list
       | Raise _ => loaded_docs
       end
  else loaded_docs.

Definition load_documents (documents_config : DocumentsConfig)
    (self : RAGSystem Document VectorStore)
  : Outcome nat * RAGSystem Document VectorStore :=
  let guides_path := get (user_guides_path documents_config) "./data/user_guides" in
  match rglob guides_path with
  | None =>
      (Raise (OtherException
                ("User guides directory not found: " ++ path_str guides_path)),
       self)
  | Some entries =>
      let supported := get (supported_formats documents_config) [".txt"] in
      let loaded_docs := fold_left (load_step supported) entries [] in
      (Return (List.length loaded_docs),
       {| vector_config := vector_config self;
          vector_store := vector_store self;
          documents := loaded_docs |})
  end.

Definition load_existing_vector_store (self : RAGSystem Document VectorStore)
  : bool * RAGSystem Document VectorStore :=
  let dir := get (persist_directory (vector_config self)) "./data/vector_db" in
  let ty := lower (get (store_type (vector_config self)) "chromadb") in
  if String.eqb ty "chromadb" then
    let coll := get (collection_name (vector_config self)) "user_guides" in
    match chroma_open dir coll with
    | Return vs => (true, set_vector_store _ _ self vs)
    | Raise _ => (false, self)
    end
  else if String.eqb ty "faiss" then
    match faiss_load_local dir with
    | Return vs => (true, set_vector_store _ _ self vs)
    | Raise _ => (false, self)
    end
  else (false, self).

Definition retrieve_relevant_documents (self : RAGSystem Document VectorStore)
    (query : string) (k : nat) : Outcome (list Document) :=
  match vector_store self with
  | None => Raise (ValueError not_initialized_message)
  | Some vs => similarity_search vs query k
  end.

Definition context_part (i : nat) (doc : Document) : string :=
  "[Source " ++ str_of_nat i ++ ": " ++ get (metadata_source doc) "Unknown" ++ "]"
    ++ String LF (page_content doc).

Definition get_context_for_query (self : RAGSystem Document VectorStore)
    (query : string) (k : nat) : Outcome string :=
  match retrieve_relevant_documents self query k with
  | Raise e => Raise e
  | Return docs =>
      let context_parts :=
        fold_left (fun parts id => (parts ++ [context_part (fst id) (snd id)])%list)
                  (enumerate_from 1 docs) [] in
      Return (join (String LF (String LF "")) context_parts)
  end.

Definition initialize_or_load (documents_config : DocumentsConfig)
    (self : RAGSystem Document VectorStore)
  : Outcome string * RAGSystem Document VectorStore * list BuildEvent :=
  match load_existing_vector_store self with
  | (true, self1) => (Return "Loaded existing vector store", self1, [])
  | (false, self1) =>
      match load_documents documents_config self1 with
      | (Raise e, self2) => (Raise e, self2, [])
      | (Return doc_count, self2) =>
          match create_vector_store split_documents chroma_from_documents
                  faiss_from_documents faiss_save_local self2 with
          | (Raise e, self3, events) => (Raise e, self3, events)
          | (Return _, self3, events) =>
              (Return ("Created new vector store with " ++ str_of_nat doc_count
                         ++ " documents"),
               self3, events)
          end
      end
  end.

End Pipeline.

Arguments _load_single_document {Document} run_loader f.
Arguments load_step {Document} run_loader supported loaded_docs f.
Arguments load_documents {Document VectorStore} rglob path_str run_loader
  documents_config self.
Arguments load_existing_vector_store {Document VectorStore}
  chroma_open faiss_load_local self.
Arguments retrieve_relevant_documents {Document VectorStore} similarity_search
  self query k.
Arguments context_part {Document} page_content metadata_source i doc.
Arguments get_context_for_query {Document VectorStore} similarity_search
  page_content metadata_source self query k.
Arguments initialize_or_load {Document VectorStore} rglob path_str run_loader
  split_documents chroma_from_documents faiss_from_documents faiss_save_local
  chroma_open faiss_load_local documents_config self.

(** What an eligible file contributes: its documents, or nothing when its
    loader raises. *)
Definition contribution {Document : Type}
    (run_loader : Loader -> string -> Outcome (list Document)) (f : FileEntry)
  : list Document :=
  match _load_single_document run_loader f with
  | Return docs => docs
  | Raise _ => []
  end.

(** A file that the loop hands to a loader. *)
Definition eligible (supported : list string) (f : FileEntry) : bool :=
  is_file f && mem (suffix f) supported.

End Ingestion.

(** ** [src/chatbot.py]: the handlers and the history *)

Module Handlers.

Import Sql Chatbot Rag SqlSystem Ingestion.

(** What a handler does outside the object: backend calls of the SQL
    system, and calls of the generative model for the answer. *)
Inductive HandlerEvent : Type :=
| Backend (event : ExecEvent)
| LlmInvoke (messages : list Message).

Definition apology (e : PyExc) : string :=
  "I apologize, but I encountered an error while looking up your contract information. Please contact our support team for assistance. Error: "
    ++ exc_message e.

Definition contract_prompt (system_prompt query results sql_query : string) : string :=
  String LF (system_prompt ++ "

User question: " ++ query ++ "

Database query results:
" ++ results ++ "

SQL query used: " ++ sql_query ++ "

Please provide a helpful, natural language answer based on the query results above.
If no results were found, let the customer know politely and offer alternatives.
").

Definition user_guide_prompt (system_prompt context query : string) : string :=
  String LF (system_prompt ++ "

Context from user guides:
" ++ context ++ "

User question: " ++ query ++ "

Please provide a helpful answer based on the context above. If the context does not contain
the information needed, let the customer know and offer to escalate to a human agent.
").

Section Handlers.

Variables Engine Db LLM Document VectorStore : Type.

Variable run_chain : LLM -> Db -> string -> Outcome ChainOutput.
Variable connection_execute : Engine -> string -> Outcome (list (Row Value)).
Variable str : Value -> string.
Variable not_a_string : PyExc.
Variable similarity_search : VectorStore -> string -> nat -> Outcome (list Document).
Variable page_content : Document -> string.
Variable metadata_source : Document -> option string.

(** [self.llm.invoke(messages).content]. *)
Variable llm_invoke : LLM -> list Message -> Outcome string.

(** The parts of the chatbot that the handlers use; [system_prompt] is
    [config.get('chatbot', 'system_prompt', default='')]. *)
Record Components : Type := {
  llm : LLM;
  rag_system : RAGSystem Document VectorStore;
  sql_system : SQLQuerySystem Engine Db;
  system_prompt : string
}.

Definition handle_user_guide_query (self : Components) (query : string)
  : Outcome string * list HandlerEvent :=
  match get_context_for_query similarity_search page_content metadata_source
          (rag_system self) query 3 with
  | Raise e => (Raise e, [])
  | Return context =>
      let prompt := user_guide_prompt (system_prompt self) context query in
      let messages := [SystemMessage (system_prompt self); HumanMessage prompt] in
      (llm_invoke (llm self) messages, [LlmInvoke messages])
  end.

Definition handle_contract_query (self : Components) (query : string)
  : string * list HandlerEvent :=
  match query_and_format run_chain connection_execute str not_a_string
          (sql_system self) query (llm self) with
  | (Raise e, events) => (apology e, map Backend events)
  | (Return (sql_query, results), events) =>
      let prompt := contract_prompt (system_prompt self) query results sql_query in
      let messages := [SystemMessage (system_prompt self); HumanMessage prompt] in
      match llm_invoke (llm self) messages with
      | Return content => (content, (map Backend events ++ [LlmInvoke messages])%list)
      | Raise e => (apology e, (map Backend events ++ [LlmInvoke messages])%list)
      end
  end.

Definition handle_general_query (self : Components) (query : string)
  : Outcome string * list HandlerEvent :=
  let messages := [SystemMessage (system_prompt self); HumanMessage query] in
  (llm_invoke (llm self) messages, [LlmInvoke messages]).

(** [process_query] with the three handlers of the class. *)
Definition process (llm_classification : string -> Outcome string)
    (parts : Components) (self : CustomerServiceChatbot)
    (query : string) (use_llm_classification : bool)
  : Outcome Response * CustomerServiceChatbot :=
  process_query llm_classification
    (fun q => fst (handle_user_guide_query parts q))
    (fun q => fst (handle_contract_query parts q))
    (fun q => fst (handle_general_query parts q))
    self query use_llm_classification.

End Handlers.

Arguments Build_Components {Engine Db LLM Document VectorStore}.
Arguments llm {Engine Db LLM Document VectorStore} _.
Arguments rag_system {Engine Db LLM Document VectorStore} _.
Arguments sql_system {Engine Db LLM Document VectorStore} _.
Arguments system_prompt {Engine Db LLM Document VectorStore} _.
Arguments handle_user_guide_query {Engine Db LLM Document VectorStore}
  similarity_search page_content metadata_source llm_invoke self query.
Arguments handle_contract_query {Engine Db LLM Document VectorStore}
  run_chain connection_execute str not_a_string llm_invoke self query.
Arguments handle_general_query {Engine Db LLM Document VectorStore}
  llm_invoke self query.
Arguments process {Engine Db LLM Document VectorStore}
  run_chain connection_execute str not_a_string similarity_search page_content
  metadata_source llm_invoke llm_classification parts self query
  use_llm_classification.

(** [self.memory.clear()] when there is a memory: LangChain empties the
    stored messages. *)
Definition clear_history (self : CustomerServiceChatbot) : CustomerServiceChatbot :=
  {| intent_keywords := intent_keywords self;
     memory := option_map (fun m => {| k := k m; messages := [] |}) (memory self) |}.

End Handlers.

(** ** [src/config_loader.py] *)

Module Config.

Import Ingestion.

(** A parsed YAML value.  A dict is its items, with distinct keys. *)
#[warnings="-register-all"] Inductive Cfg : Type :=
| CNull
| CBool (b : bool)
| CInt (z : Z)
| CFloat (num : Z) (den : positive)
| CStr (s : string)
| CList (items : list Cfg)
| CDict (items : list (string * Cfg)).

(** [os.environ] as [os.getenv] reads it. *)
Definition Env : Type := string -> option string.

(** The longest prefix of characters satisfying [P], and the rest. *)
Fixpoint span (P : ascii -> bool) (s : string) : string * string :=
  match s with
  | EmptyString => (EmptyString, EmptyString)
  | String c t =>
      if P c then let (a, b) := span P t in (String c a, b)
      else (EmptyString, s)
  end.

(** [[^}:]] and [[^}]]. *)
Definition name_char (c : ascii) : bool :=
  negb (Ascii.eqb c "}") && negb (Ascii.eqb c ":").

Definition default_char (c : ascii) : bool := negb (Ascii.eqb c "}").

(** A match of the pattern dollar, brace, name, optional colon and
    default, brace, at the head of [s]: group 1, group 2 when it took
    part, and the length of the match. *)
Definition match_here (s : string) : option (string * option string * nat) :=
  match s with
  | String "$" (String "{" rest) =>
      match span name_char rest with
      | (EmptyString, _) => None
      | (var_name, String "}" _) =>
          Some (var_name, None, 2 + String.length var_name + 1)
      | (var_name, String ":" after) =>
          match span default_char after with
          | (String d ds, String "}" _) =>
              Some (var_name, Some (String d ds),
                    2 + String.length var_name + 1 + String.length (String d ds) + 1)
          | _ => None
          end
      | _ => None
      end
  | _ => None
  end.

(** [replacer(match)]. *)
Definition replacer (env : Env) (var_name : string) (group2 : option string) : string :=
  let default_value := match group2 with
                       | Some d => d
                       | None => EmptyString
                       end in
  match env var_name with
  | Some v => v
  | None => default_value
  end.

(** [re.sub(pattern, replacer, value)]: matches are taken from the left
    and do not overlap; [skip] characters still belong to the last match. *)
Fixpoint sub_from (env : Env) (skip : nat) (s : string) : string :=
  match s with
  | EmptyString => EmptyString
  | String c t =>
      match skip with
      | S n => sub_from env n t
      | O =>
          match match_here s with
          | Some (var_name, group2, len) =>
              replacer env var_name group2 ++ sub_from env (len - 1) t
          | None => String c (sub_from env 0 t)
          end
      end
  end.

Definition _substitute_string (env : Env) (value : string) : string :=
  sub_from env 0 value.

Fixpoint _substitute_env_vars (env : Env) (config : Cfg) : Cfg :=
  match config with
  | CDict items =>
      CDict (map (fun kv => match kv with
                            | (key, value) => (key, _substitute_env_vars env value)
                            end) items)
  | CList items => CList (map (_substitute_env_vars env) items)
  | CStr s => CStr (_substitute_string env s)
  | other => other
  end.

(** [self.get] with its key path and its [default], on a loaded
    configuration. *)
Fixpoint get_path (value : Cfg) (keys : list string) (default : Cfg) : Cfg :=
  match keys with
  | [] => value
  | key :: rest =>
      match value with
      | CDict items =>
          match lookup key items with
          | Some v => get_path v rest default
          | None => default
          end
      | _ => default
      end
  end.

Definition get_vector_store_config (config : Cfg) : Cfg :=
  get_path config ["vector_store"] (CDict []).

Definition get_sql_config (config : Cfg) : Cfg :=
  get_path config ["sql_database"] (CDict []).

Definition get_chatbot_config (config : Cfg) : Cfg :=
  get_path config ["chatbot"] (CDict []).

Definition get_intent_keywords (config : Cfg) : Cfg :=
  CDict [("user_guide",
          get_path config ["intent_classification"; "user_guide_keywords"] (CList []));
         ("contract",
          get_path config ["intent_classification"; "contract_keywords"] (CList []))].

(** No character of the text is a dollar sign. *)
Fixpoint no_dollar (s : string) : bool :=
  match s with
  | EmptyString => true
  | String c t => negb (Ascii.eqb c "$") && no_dollar t
  end.

(** Every character of the text satisfies [P]. *)
Fixpoint all_chars (P : ascii -> bool) (s : string) : bool :=
  match s with
  | EmptyString => true
  | String c t => P c && all_chars P t
  end.

End Config.

(** ** Further notions used to state properties *)

Module Notions.

(** [t] is a contiguous part of [s]. *)
Definition is_slice (t s : string) : Prop :=
  exists pre post, s = pre ++ t ++ post.

(** No character of the text is whitespace. *)
Fixpoint no_space (s : string) : bool :=
  match s with
  | EmptyString => true
  | String c t => negb (is_space c) && no_space t
  end.

(** Every character of the text is ASCII: on such text [str.upper],
    [str.lower] and [str.strip] are the functions of [PyStr]. *)
Fixpoint is_ascii (s : string) : bool :=
  match s with
  | EmptyString => true
  | String c t => (nat_of_ascii c <? 128)%nat && is_ascii t
  end.

(** The value that a key path leads to in a configuration, if the path
    exists. *)
Fixpoint find_path (value : Config.Cfg) (keys : list string) : option Config.Cfg :=
  match keys with
  | [] => Some value
  | key :: rest =>
      match value with
      | Config.CDict items =>
          match Ingestion.lookup key items with
          | Some v => find_path v rest
          | None => None
          end
      | _ => None
      end
  end.

(** The database types that [_initialize_connection] knows. *)
Definition supported_db_types : list string := ["postgresql"; "mysql"; "sqlite"].

End Notions.

(** ** Text as Unicode code points

    The functions of the source that depend on Python's Unicode tables,
    embedded over sequences of code points.  The tables themselves are
    parameters: which characters are whitespace ([str.isspace], used by
    [str.strip] and by the [\s] of [re]), which text character a pattern
    character matches under IGNORECASE, and what [str.lower] returns. *)

Module Uni.

Import Sql Chatbot.

Definition text : Type := list N.

(** A literal of the source, all of whose characters are ASCII. *)
Definition of_string (s : string) : text :=
  map N_of_ascii (list_ascii_of_string s).

Fixpoint text_eqb (a b : text) : bool :=
  match a, b with
  | [], [] => true
  | x :: a', y :: b' => N.eqb x y && text_eqb a' b'
  | _, _ => false
  end.

(** [s.startswith(p)]. *)
Fixpoint startswith (p s : text) : bool :=
  match p, s with
  | [], _ => true
  | _ :: _, [] => false
  | a :: p', b :: s' => N.eqb a b && startswith p' s'
  end.

(** [s.endswith(p)]. *)
Definition endswith (p s : text) : bool :=
  (List.length p <=? List.length s)%nat
  && text_eqb (skipn (List.length s - List.length p) s) p.

(** [needle in hay]. *)
Fixpoint contains (needle hay : text) : bool :=
  startswith needle hay
  || match hay with
     | [] => false
     | _ :: t => contains needle t
     end.

(** The least [p] at which the rest [s[p:]] satisfies [P]. *)
Fixpoint find_from (P : text -> bool) (s : text) : option nat :=
  if P s then Some O
  else match s with
       | [] => None
       | _ :: t => option_map S (find_from P t)
       end.

(** [s.split(sep, 1)[1]]. *)
Fixpoint split_after (sep s : text) : option text :=
  if startswith sep s then Some (skipn (List.length sep) s)
  else match s with
       | [] => None
       | _ :: t => split_after sep t
       end.

(** [s[:-n]] for [n > 0]. *)
Definition drop_last (n : nat) (s : text) : text :=
  firstn (List.length s - n) s.

Definition sql_keywords : list text := map of_string Sql.sql_keywords.

Definition prefixes_to_remove : list text := map of_string Sql.prefixes_to_remove.

Section Cleanup.

(** [str.isspace] on one character. *)
Variable is_space : N -> bool.

(** The pattern character [k] matches the text character [c] under
    IGNORECASE. *)
Variable ci_match : N -> N -> bool.

Fixpoint lstrip (s : text) : text :=
  match s with
  | [] => []
  | c :: t => if is_space c then lstrip t else s
  end.

Fixpoint rstrip (s : text) : text :=
  match s with
  | [] => []
  | c :: t =>
      match rstrip t with
      | [] => if is_space c then [] else [c]
      | r => c :: r
      end
  end.

(** [s.strip()]. *)
Definition strip (s : text) : text := rstrip (lstrip s).

(** The keyword's characters match at the head of [s]; what is left of
    [s] after them is returned. *)
Fixpoint ci_strip_prefix (kw s : text) : option text :=
  match kw, s with
  | [], _ => Some s
  | _ :: _, [] => None
  | k :: kw', c :: s' => if ci_match k c then ci_strip_prefix kw' s' else None
  end.

(** The keyword and [\s+] match at the head of [s]; the dot-star with
    DOTALL then takes everything up to the end of the text. *)
Definition kw_ws_at (kw s : text) : bool :=
  match ci_strip_prefix kw s with
  | Some (c :: _) => is_space c
  | _ => false
  end.

(** [re.search]: the start of the leftmost match, if any. *)
Definition re_search_kw (kw s : text) : option nat :=
  find_from (kw_ws_at kw) s.

Fixpoint remove_prefix (prefixes : list text) (sql_query : text) : text :=
  match prefixes with
  | [] => sql_query
  | prefix :: rest =>
      if startswith prefix sql_query
      then strip (skipn (List.length prefix) sql_query)
      else remove_prefix rest sql_query
  end.

Fixpoint extract_statement (keywords : list text) (sql_query : text) : text :=
  match keywords with
  | [] => sql_query
  | keyword :: rest =>
      match re_search_kw keyword sql_query with
      | Some p => strip (skipn p sql_query)
      | None => extract_statement rest sql_query
      end
  end.

Definition after_marker (sql_query : text) : text :=
  if contains (of_string "SQLQuery:") sql_query
  then match split_after (of_string "SQLQuery:") sql_query with
       | Some rest => strip rest
       | None => sql_query
       end
  else sql_query.

Definition remove_opening_fence (sql_query : text) : text :=
  if startswith (of_string "```sql") sql_query then strip (skipn 6 sql_query)
  else if startswith (of_string "```") sql_query then strip (skipn 3 sql_query)
  else sql_query.

Definition remove_closing_fence (sql_query : text) : text :=
  if endswith (of_string "```") sql_query then strip (drop_last 3 sql_query)
  else sql_query.

(** Lines 147-167 of [natural_language_to_sql]. *)
Definition before_extraction (raw : text) : text :=
  let sql_query := strip raw in
  let sql_query := after_marker sql_query in
  let sql_query := remove_opening_fence sql_query in
  let sql_query := remove_closing_fence sql_query in
  remove_prefix prefixes_to_remove sql_query.

(** Lines 147-178 of [natural_language_to_sql]. *)
Definition cleanup (raw : text) : text :=
  extract_statement sql_keywords (before_extraction raw).

(** Some recognized keyword followed by whitespace stands at the head of [s]. *)
Definition keyword_ws_at (s : text) : bool :=
  existsb (fun kw => kw_ws_at kw s) sql_keywords.

(** The position of the earliest occurrence of a recognized keyword
    followed by whitespace. *)
Definition first_keyword_ws_pos (s : text) : option nat :=
  find_from keyword_ws_at s.

(** The text starts with something else than whitespace, or is empty. *)
Definition no_lead (s : text) : bool :=
  match s with
  | [] => true
  | c :: _ => negb (is_space c)
  end.

End Cleanup.

(** [self.intent_keywords]. *)
Record IntentKeywords : Type := {
  user_guide : list text;
  contract : list text
}.

Section Classify.

(** [str.lower]. *)
Variable lower : text -> text.

(** [sum(1 for keyword in keywords if keyword.lower() in query_lower)]. *)
Definition keyword_score (keywords : list text) (query_lower : text) : nat :=
  list_sum (map (fun _ => 1)
                (filter (fun keyword => contains (lower keyword) query_lower) keywords)).

Definition classify_intent (intent_keywords : IntentKeywords) (query : text)
  : IntentType :=
  let query_lower := lower query in
  let user_guide_score := keyword_score (user_guide intent_keywords) query_lower in
  let contract_score := keyword_score (contract intent_keywords) query_lower in
  if (user_guide_score <? contract_score)%nat then CONTRACT_INFO
  else if (0 <? user_guide_score)%nat then USER_GUIDE
  else GENERAL.

(** [needle] is a contiguous part of [hay]. *)
Definition occurs (needle hay : text) : Prop :=
  exists pre post, hay = (pre ++ needle ++ post)%list.

(** A keyword occurs in the query as a case-insensitive substring: its
    lower-cased form is a contiguous part of the lower-cased query. *)
Definition ci_occurs (kw query : text) : Prop :=
  occurs (lower kw) (lower query).

(** The number of keywords of a list that occur in the query as
    case-insensitive substrings, a keyword listed twice counting twice. *)
Inductive MatchCount (query : text) : list text -> nat -> Prop :=
| MatchCount_nil : MatchCount query [] 0
| MatchCount_hit kw kws n :
    ci_occurs kw query -> MatchCount query kws n ->
    MatchCount query (kw :: kws) (S n)
| MatchCount_miss kw kws n :
    ~ ci_occurs kw query -> MatchCount query kws n ->
    MatchCount query (kw :: kws) n.

End Classify.

(** The tables on ASCII text: the whitespace characters TAB to CR, FS to
    US and the space; letters matching up to their case; lower-casing of
    A to Z. *)
Definition ascii_space (c : N) : bool :=
  (((9 <=? c) && (c <=? 13)) || ((28 <=? c) && (c <=? 32)))%N.

Definition ascii_lower_char (c : N) : N :=
  if ((65 <=? c) && (c <=? 90))%N then (c + 32)%N else c.

Definition ascii_ci_match (k c : N) : bool :=
  N.eqb (ascii_lower_char k) (ascii_lower_char c).

Definition ascii_lower (s : text) : text := map ascii_lower_char s.

End Uni.

Import Sql Chatbot Rag Described.
Import SqlSystem Notions Ingestion Handlers Config.

(** * Properties *)

(** ** Runs on concrete inputs *)

Example upper_mixed : upper "DeLeTe from t;" = "DELETE FROM T;".
Proof. reflexivity. Qed.

Example strip_both : strip (String LF "  a b  " ++ String LF "") = "a b".
Proof. reflexivity. Qed.

Example split_marker : split_after "SQLQuery:" "x SQLQuery: SELECT 1" = Some " SELECT 1".
Proof. reflexivity. Qed.

Example endswith_fence : endswith "```" "abc```" = true /\ drop_last 3 "abc```" = "abc".
Proof. split; reflexivity. Qed.

Example join_three : join ", " ["a"; "b"; "c"] = "a, b, c".
Proof. reflexivity. Qed.

Example str_of_nat_12 : str_of_nat 12 = "12".
Proof. reflexivity. Qed.

Example search_select :
  re_search_kw "SELECT" "Here you go: select a from t" = Some 13.
Proof. reflexivity. Qed.

Example search_needs_whitespace : re_search_kw "SELECT" "x SELECT" = None.
Proof. reflexivity. Qed.

Example cleanup_marker :
  cleanup "Question: q  SQLQuery: ```sql SELECT 1 ```" = "SELECT 1".
Proof. reflexivity. Qed.

Example cleanup_label : cleanup "  Query: select * from t  " = "select * from t".
Proof. reflexivity. Qed.

Example mock_sql_expires :
  _generate_mock_sql "My contract EXPIRES when?" = expiration_template.
Proof. reflexivity. Qed.

Example safe_select : _is_safe_query "select * from contracts" = true.
Proof. reflexivity. Qed.

Example unsafe_mixed_case : _is_safe_query "DeLeTe FROM contracts" = false.
Proof. reflexivity. Qed.

Example unsafe_inside_word : _is_safe_query "SELECT created_at FROM t" = false.
Proof. reflexivity. Qed.

(** ** Substring tests and case mapping *)

Lemma prefix_app (p s : string) : String.prefix p (p ++ s) = true.
Proof.
  induction p as [|a p IH]; simpl.
  - destruct s; reflexivity.
  - destruct (ascii_dec a a) as [_|ne]; [exact IH | now elim ne].
Qed.

Lemma prefix_inv (p s : string) :
  String.prefix p s = true -> exists t, s = p ++ t.
Proof.
  revert s; induction p as [|a p IH]; intros s H.
  - now exists s.
  - destruct s as [|b s]; simpl in H; [discriminate|].
    destruct (ascii_dec a b) as [->|]; [|discriminate].
    destruct (IH _ H) as [t ->]. now exists t.
Qed.

Lemma append_assoc (a b c : string) : (a ++ b) ++ c = a ++ (b ++ c).
Proof. induction a as [|x a IH]; simpl; [reflexivity | now rewrite IH]. Qed.

Lemma append_nil_r (a : string) : a ++ "" = a.
Proof. induction a as [|x a IH]; simpl; [reflexivity | now rewrite IH]. Qed.

Lemma py_in_spec (needle hay : string) :
  py_in needle hay = true <-> exists pre post, hay = pre ++ needle ++ post.
Proof.
  split.
  - induction hay as [|c t IH]; cbn [py_in]; intro H.
    + rewrite orb_false_r in H. destruct (prefix_inv _ _ H) as [u Hu].
      now exists "", u.
    + apply orb_true_iff in H as [H|H].
      * destruct (prefix_inv _ _ H) as [u Hu]. now exists "", u.
      * destruct (IH H) as (pre & post & ->). now exists (String c pre), post.
  - intros (pre & post & ->).
    induction pre as [|c pre IH].
    + change ("" ++ needle ++ post) with (needle ++ post).
      destruct (needle ++ post) eqn:E; cbn [py_in];
        rewrite <- ?E, prefix_app; reflexivity.
    + change (String c pre ++ needle ++ post)
        with (String c (pre ++ needle ++ post)).
      cbn [py_in]. rewrite IH. apply orb_true_r.
Qed.

Lemma smap_app (f : ascii -> ascii) (a b : string) :
  smap f (a ++ b) = smap f a ++ smap f b.
Proof. induction a as [|x a IH]; simpl; [reflexivity | now rewrite IH]. Qed.

Lemma smap_app_inv (f : ascii -> ascii) (s a b : string) :
  smap f s = a ++ b ->
  exists a' b', s = a' ++ b' /\ smap f a' = a /\ smap f b' = b.
Proof.
  revert s; induction a as [|x a IH]; intros s H.
  - exists "", s. auto.
  - destruct s as [|c s]; simpl in H; [discriminate|].
    injection H as Hc Hs. destruct (IH _ Hs) as (a' & b' & -> & Ha & Hb).
    exists (String c a'), b'. simpl. now rewrite Hc, Ha.
Qed.

Lemma lower_upper_char (c : ascii) : lower_char (upper_char c) = lower_char c.
Proof. destruct c as [[] [] [] [] [] [] [] []]; reflexivity. Qed.

Lemma upper_lower_char (c : ascii) : upper_char (lower_char c) = upper_char c.
Proof. destruct c as [[] [] [] [] [] [] [] []]; reflexivity. Qed.

Lemma is_space_lower_char (c : ascii) : is_space (lower_char c) = is_space c.
Proof. destruct c as [[] [] [] [] [] [] [] []]; reflexivity. Qed.

Lemma lower_upper (s : string) : lower (upper s) = lower s.
Proof.
  induction s as [|c s IH]; simpl; [reflexivity|].
  unfold lower, upper in *. simpl. now rewrite lower_upper_char, IH.
Qed.

Lemma upper_lower (s : string) : upper (lower s) = upper s.
Proof.
  induction s as [|c s IH]; simpl; [reflexivity|].
  unfold lower, upper in *. simpl. now rewrite upper_lower_char, IH.
Qed.

(** [kw.lower() in query.lower()] decides case-insensitive occurrence. *)
Lemma py_in_lower_spec (kw query : string) :
  py_in (lower kw) (lower query) = true <-> ci_substring kw query.
Proof.
  rewrite py_in_spec. split.
  - intros (pre & post & H).
    destruct (smap_app_inv _ _ _ _ H) as (pre' & rest & -> & _ & Hrest).
    destruct (smap_app_inv _ _ _ _ Hrest) as (mid & post' & -> & Hmid & _).
    exists pre', mid, post'. split; [reflexivity | exact Hmid].
  - intros (pre & mid & post & -> & Hmid).
    exists (lower pre), (lower post). unfold ci_eq, lower in *.
    now rewrite !smap_app, Hmid.
Qed.

(** [KW in query.upper()] decides it as well, for a keyword in capitals. *)
Lemma py_in_upper_spec (kw query : string) :
  upper kw = kw ->
  (py_in kw (upper query) = true <-> ci_substring kw query).
Proof.
  intro Hkw. rewrite py_in_spec. split.
  - intros (pre & post & H).
    destruct (smap_app_inv _ _ _ _ H) as (pre' & rest & -> & _ & Hrest).
    destruct (smap_app_inv _ _ _ _ Hrest) as (mid & post' & -> & Hmid & _).
    exists pre', mid, post'. split; [reflexivity|].
    unfold ci_eq. rewrite <- (lower_upper mid). now rewrite <- Hmid.
  - intros (pre & mid & post & -> & Hmid).
    exists (upper pre), (upper post). unfold upper at 1. rewrite !smap_app.
    fold (upper pre) (upper mid) (upper post). unfold ci_eq in Hmid.
    rewrite <- (upper_lower mid), Hmid, upper_lower, Hkw. reflexivity.
Qed.

Lemma unsafe_keywords_capitals (kw : string) :
  In kw unsafe_keywords -> upper kw = kw.
Proof.
  unfold unsafe_keywords; simpl; intros H.
  repeat (destruct H as [<-|H]; [reflexivity|]). contradiction.
Qed.

(** The safety check fails exactly on the texts in which a denylisted
    keyword occurs, whatever the case of its letters. *)
Lemma is_safe_query_false_iff (sql_query : string) :
  _is_safe_query sql_query = false <->
  exists kw, In kw unsafe_keywords /\ ci_substring kw sql_query.
Proof.
  unfold _is_safe_query. rewrite negb_false_iff, existsb_exists.
  split; intros (kw & Hin & H); exists kw; split; auto;
    now apply (py_in_upper_spec kw sql_query (unsafe_keywords_capitals kw Hin)).
Qed.

(** ** The safety gate of [execute_query] *)

(** C1. A query in which one of INSERT, UPDATE, DELETE, DROP, ALTER,
    CREATE, TRUNCATE occurs in any casing is refused with the
    unsafe-operations [ValueError] before any backend is touched: neither
    the live connection nor the mock results are used, and no rows come
    back.  Whenever [execute_query] does return rows, the query passed the
    read-only check and contains none of these keywords. *)
Theorem execute_query_blocks_unsafe
    (Engine Db : Type)
    (connection_execute : Engine -> string -> Outcome (list (Row Value)))
    (self : SQLQuerySystem Engine Db) (sql_query : string) :
  ((exists kw, In kw unsafe_keywords /\ ci_substring kw sql_query) ->
   execute_query connection_execute self sql_query
   = (Raise (ValueError unsafe_message), []))
  /\
  (forall rows events,
      execute_query connection_execute self sql_query = (Return rows, events) ->
      _is_safe_query sql_query = true
      /\ forall kw, In kw unsafe_keywords -> ~ ci_substring kw sql_query).
Proof.
  split.
  - intros H. apply is_safe_query_false_iff in H.
    unfold execute_query. now rewrite H.
  - intros rows events H.
    destruct (_is_safe_query sql_query) eqn:Hsafe.
    + split; [reflexivity|]. intros kw Hin Hocc.
      assert (Hf : _is_safe_query sql_query = false)
        by (apply is_safe_query_false_iff; eauto).
      congruence.
    + unfold execute_query in H. rewrite Hsafe in H. discriminate.
Qed.

Lemma execute_query_blocks_unsafe_witness :
  execute_query (fun (_ : unit) (_ : string) => Return [])
    {| engine := Some tt; db := Some tt; schema_description := "" |}
    "DeLeTe FROM contracts"
  = (Raise (ValueError unsafe_message), [])
  /\ _is_safe_query "SELECT 1" = true.
Proof.
  split.
  - apply (proj1 (execute_query_blocks_unsafe unit unit _ _ _)).
    exists "DELETE". split; [simpl; tauto|].
    exists "", "DeLeTe", " FROM contracts". split; reflexivity.
  - apply (proj2 (execute_query_blocks_unsafe unit unit
                    (fun _ _ => Return [])
                    {| engine := Some tt; db := Some tt; schema_description := "" |}
                    "SELECT 1") [] [LiveExecute "SELECT 1"]).
    reflexivity.
Defined.

(** ** Mock mode *)

Lemma mock_sql_cases (question : string) :
  _generate_mock_sql question = expiration_template
  \/ _generate_mock_sql question = modules_template
  \/ _generate_mock_sql question = pricing_template
  \/ _generate_mock_sql question = default_template.
Proof.
  unfold _generate_mock_sql.
  destruct (_ || _); [tauto|].
  destruct (_ || _); [tauto|].
  destruct (_ || _); tauto.
Qed.

Lemma mock_sql_safe (question : string) :
  _is_safe_query (_generate_mock_sql question) = true.
Proof.
  destruct (mock_sql_cases question) as [-> | [-> | [-> | ->]]];
    vm_compute; reflexivity.
Qed.

Lemma execute_query_safe
    (Engine Db : Type)
    (connection_execute : Engine -> string -> Outcome (list (Row Value)))
    (self : SQLQuerySystem Engine Db) (sql_query : string) :
  _is_safe_query sql_query = true ->
  exists rows events,
    execute_query connection_execute self sql_query = (Return rows, events)
    /\ events <> [].
Proof.
  intro H. unfold execute_query. rewrite H. simpl.
  destruct (engine self) as [e|].
  - destruct (connection_execute e sql_query); eexists _, _; split;
      try reflexivity; discriminate.
  - eexists _, _; split; [reflexivity | discriminate].
Qed.

(** C5 (as the code has it).  Without a live connection the translation
    is the mock query of the question alone, whatever the model and the
    system object are: it always returns, and it is the expiration-lookup
    template exactly when "expiration" or "expires" occurs in the question,
    in any casing. *)
Theorem mock_translation_deterministic
    (Engine Db LLM : Type)
    (run_chain : LLM -> Db -> string -> Outcome ChainOutput)
    (self : SQLQuerySystem Engine Db) (llm : LLM) (question : string) :
  db self = None ->
  natural_language_to_sql run_chain self question llm
  = Text (_generate_mock_sql question)
  /\ (ci_substring "expiration" question \/ ci_substring "expires" question
      <-> natural_language_to_sql run_chain self question llm
          = Text expiration_template).
Proof.
  intro Hdb. unfold natural_language_to_sql. rewrite Hdb.
  split; [reflexivity|].
  rewrite <- (py_in_lower_spec "expiration"), <- (py_in_lower_spec "expires").
  change (lower "expiration") with "expiration".
  change (lower "expires") with "expires".
  rewrite <- orb_true_iff. unfold _generate_mock_sql.
  destruct (py_in "expiration" (lower question) || py_in "expires" (lower question)).
  - split; reflexivity.
  - split; [discriminate|].
    destruct (_ || _); [discriminate|].
    destruct (_ || _); discriminate.
Qed.

Lemma mock_translation_deterministic_witness :
  natural_language_to_sql (fun (_ _ : unit) (_ : string) => Raise (OtherException "offline"))
    (Build_SQLQuerySystem unit unit None None "")
    "When is the EXPIRATION date?" tt
  = Text expiration_template.
Proof.
  apply (proj2 (mock_translation_deterministic unit unit unit _
                  (Build_SQLQuerySystem unit unit None None "") tt
                  "When is the EXPIRATION date?" eq_refl)).
  left. exists "When is the ", "EXPIRATION", " date?". split; reflexivity.
Defined.

(** C5 as stated fails: "expire" matches expir*, yet the question gets
    the default template, not the expiration lookup. *)
Lemma mock_translation_expire_counterexample :
  ci_substring "expir" "When does my contract expire?"
  /\ natural_language_to_sql (fun (_ _ : unit) (_ : string) => Return NonText)
       (Build_SQLQuerySystem unit unit None None "")
       "When does my contract expire?" tt
     = Text default_template
  /\ Text default_template <> Text expiration_template.
Proof.
  split; [|split].
  - exists "When does my contract ", "expir", "e?". split; reflexivity.
  - reflexivity.
  - discriminate.
Qed.

(** C6. The mock query of any question contains no denylisted keyword and
    passes the safety check, so in degraded mode [execute_query] never
    takes its policy-violation branch on the translated question: it
    returns rows. *)
Theorem mock_sql_passes_safety_gate
    (Engine Db LLM : Type)
    (run_chain : LLM -> Db -> string -> Outcome ChainOutput)
    (connection_execute : Engine -> string -> Outcome (list (Row Value)))
    (self : SQLQuerySystem Engine Db) (llm : LLM) (question : string) :
  db self = None ->
  exists sql,
    natural_language_to_sql run_chain self question llm = Text sql
    /\ (forall kw, In kw unsafe_keywords -> ~ ci_substring kw sql)
    /\ _is_safe_query sql = true
    /\ exists rows events,
         execute_query connection_execute self sql = (Return rows, events).
Proof.
  intro Hdb. exists (_generate_mock_sql question).
  pose proof (mock_sql_safe question) as Hsafe.
  split; [|split; [|split]].
  - unfold natural_language_to_sql. now rewrite Hdb.
  - intros kw Hin Hocc.
    assert (_is_safe_query (_generate_mock_sql question) = false)
      by (apply is_safe_query_false_iff; eauto).
    congruence.
  - exact Hsafe.
  - destruct (execute_query_safe Engine Db connection_execute self _ Hsafe)
      as (rows & events & H & _). eauto.
Qed.

Lemma mock_sql_passes_safety_gate_witness :
  exists sql,
    natural_language_to_sql (fun (_ _ : unit) (_ : string) => Return NonText)
      (Build_SQLQuerySystem unit unit None None "")
      "When does my contract expire for ACME Corp?" tt = Text sql
    /\ (forall kw, In kw unsafe_keywords -> ~ ci_substring kw sql)
    /\ _is_safe_query sql = true
    /\ exists rows events,
         execute_query (fun (_ : unit) (_ : string) => Return [])
           (Build_SQLQuerySystem unit unit None None "") sql
         = (Return rows, events).
Proof.
  apply (mock_sql_passes_safety_gate unit unit unit). reflexivity.
Defined.

(** C10. With a live connection, an exception raised by the model chain
    is caught: the translation is the empty string.  The empty string
    passes the safety check, so [execute_query] goes on to its backend
    with it instead of refusing. *)
Theorem translation_failure_yields_empty
    (Engine Db LLM : Type)
    (run_chain : LLM -> Db -> string -> Outcome ChainOutput)
    (connection_execute : Engine -> string -> Outcome (list (Row Value)))
    (self : SQLQuerySystem Engine Db) (d : Db) (llm : LLM)
    (question : string) (e : PyExc) :
  db self = Some d ->
  run_chain llm d question = Raise e ->
  natural_language_to_sql run_chain self question llm = Text ""
  /\ _is_safe_query "" = true
  /\ exists rows events,
       execute_query connection_execute self "" = (Return rows, events)
       /\ events <> [].
Proof.
  intros Hdb Hraise. split; [|split].
  - unfold natural_language_to_sql. now rewrite Hdb, Hraise.
  - reflexivity.
  - now apply execute_query_safe.
Qed.

Lemma translation_failure_yields_empty_witness :
  natural_language_to_sql
    (fun (_ _ : unit) (_ : string) => Raise (OtherException "model unavailable"))
    (Build_SQLQuerySystem unit unit (Some tt) (Some tt) "")
    "When does my contract expire?" tt = Text ""
  /\ _is_safe_query "" = true
  /\ exists rows events,
       execute_query (fun (_ : unit) (_ : string) => Return [])
         (Build_SQLQuerySystem unit unit (Some tt) (Some tt) "") ""
       = (Return rows, events)
       /\ events <> [].
Proof.
  apply (translation_failure_yields_empty unit unit unit _ _ _ tt tt
           "When does my contract expire?" (OtherException "model unavailable"));
    reflexivity.
Defined.

(** ** The cleanup pass *)

(** C4. The fenced example of the specification is cleaned to the bare
    statement. *)
Theorem cleanup_fenced_example :
  cleanup fenced_example = "SELECT * FROM contracts;"
  /\ forall (Engine Db LLM : Type) (e : option Engine) (d : Db) (llm : LLM)
        (question schema : string),
      natural_language_to_sql (fun _ _ _ => Return (Text fenced_example))
        (Build_SQLQuerySystem Engine Db e (Some d) schema) question llm
      = Text "SELECT * FROM contracts;".
Proof. split; [vm_compute; reflexivity | intros; vm_compute; reflexivity]. Qed.

(** *** Leftmost match *)

Lemma drop_nil (n : nat) : drop n "" = "".
Proof. destruct n; reflexivity. Qed.

Lemma find_from_sound (P : string -> bool) (s : string) (p : nat) :
  find_from P s = Some p ->
  P (drop p s) = true /\ forall q, q < p -> P (drop q s) = false.
Proof.
  revert p; induction s as [|c t IH]; intros p; cbn [find_from].
  - destruct (P "") eqn:E; [|discriminate].
    intros [= <-]. split; [exact E | intros q Hq; lia].
  - destruct (P (String c t)) eqn:E.
    + intros [= <-]. split; [exact E | intros q Hq; lia].
    + destruct (find_from P t) as [p'|]; [|discriminate].
      intros [= <-]. destruct (IH p' eq_refl) as [Hp Hq]. split; [exact Hp|].
      intros [|q] Hlt; [exact E | apply Hq; lia].
Qed.

Lemma find_from_complete (P : string -> bool) (s : string) (p : nat) :
  P (drop p s) = true ->
  (forall q, q < p -> P (drop q s) = false) ->
  find_from P s = Some p.
Proof.
  revert p; induction s as [|c t IH]; intros p Hp Hq; cbn [find_from].
  - rewrite drop_nil in Hp. rewrite Hp.
    destruct p as [|p]; [reflexivity|].
    specialize (Hq 0 (Nat.lt_0_succ p)). simpl in Hq. congruence.
  - destruct p as [|p].
    + simpl in Hp. now rewrite Hp.
    + pose proof (Hq 0 (Nat.lt_0_succ p)) as H0. simpl in H0. rewrite H0.
      rewrite (IH p Hp); [reflexivity|].
      intros q Hlt. apply (Hq (S q)). lia.
Qed.

(** *** Stripped text *)

Lemma rstrip_idem (s : string) : rstrip (rstrip s) = rstrip s.
Proof.
  induction s as [|c t IH]; [reflexivity|].
  cbn [rstrip]. destruct (rstrip t) as [|d r] eqn:E.
  - destruct (is_space c) eqn:Hc; [reflexivity|].
    cbn [rstrip]. now rewrite Hc.
  - cbn [rstrip] in IH |- *. cbn [rstrip]. now rewrite IH.
Qed.

Lemma rstrip_tail (c : ascii) (t : string) :
  rstrip (String c t) = String c t -> rstrip t = t.
Proof.
  cbn [rstrip]. destruct (rstrip t) as [|d r] eqn:E.
  - destruct (is_space c); [discriminate|]. now intros [= <-].
  - now intros [= <-].
Qed.

Lemma rstrip_drop (p : nat) (s : string) :
  rstrip s = s -> rstrip (drop p s) = drop p s.
Proof.
  revert s; induction p as [|p IH]; intros s H; [exact H|].
  destruct s as [|c t]; [reflexivity|].
  simpl. apply IH. now apply rstrip_tail with c.
Qed.

Lemma no_lead_lstrip (s : string) : no_lead (lstrip s) = true.
Proof.
  induction s as [|c t IH]; [reflexivity|].
  cbn [lstrip]. destruct (is_space c) eqn:E; [exact IH|].
  simpl. now rewrite E.
Qed.

Lemma lstrip_no_lead (s : string) : no_lead s = true -> lstrip s = s.
Proof.
  destruct s as [|c t]; [reflexivity|]. simpl.
  now destruct (is_space c).
Qed.

Lemma no_lead_rstrip (s : string) : no_lead s = true -> no_lead (rstrip s) = true.
Proof.
  destruct s as [|c t]; [reflexivity|]. cbn [no_lead rstrip].
  intro H. destruct (rstrip t); [|exact H].
  apply negb_true_iff in H. rewrite H. simpl. now rewrite H.
Qed.

Lemma strip_idem (s : string) : strip (strip s) = strip s.
Proof.
  unfold strip.
  rewrite (lstrip_no_lead (rstrip (lstrip s))).
  - apply rstrip_idem.
  - apply no_lead_rstrip, no_lead_lstrip.
Qed.

Lemma stripped_rstrip (s : string) : strip s = s -> rstrip s = s.
Proof.
  intro H. rewrite <- H at 1. unfold strip. rewrite rstrip_idem. exact H.
Qed.

Lemma remove_prefix_stripped (prefixes : list string) (s : string) :
  strip s = s -> strip (remove_prefix prefixes s) = remove_prefix prefixes s.
Proof.
  intro H. induction prefixes as [|x rest IH]; [exact H|].
  cbn [remove_prefix]. destruct (startswith x s); [apply strip_idem | exact IH].
Qed.

(** Every step before the keyword search leaves the text stripped. *)
Lemma before_extraction_stripped (raw : string) :
  strip (before_extraction raw) = before_extraction raw.
Proof.
  unfold before_extraction. apply remove_prefix_stripped.
  assert (H1 : strip (after_marker (strip raw)) = after_marker (strip raw)).
  { unfold after_marker. destruct (py_in _ _); [|apply strip_idem].
    destruct (split_after _ _); apply strip_idem. }
  revert H1. generalize (after_marker (strip raw)) as s1. intros s1 H1.
  assert (H2 : strip (remove_opening_fence s1) = remove_opening_fence s1).
  { unfold remove_opening_fence.
    destruct (startswith _ s1); [apply strip_idem|].
    destruct (startswith _ s1); [apply strip_idem | exact H1]. }
  revert H2. generalize (remove_opening_fence s1) as s2. intros s2 H2.
  unfold remove_closing_fence.
  destruct (endswith _ s2); [apply strip_idem | exact H2].
Qed.

Lemma kw_ws_at_no_lead (kw s : string) :
  In kw sql_keywords -> kw_ws_at kw s = true -> no_lead s = true.
Proof.
  intros Hin H. destruct s as [|c t]; [reflexivity|].
  cbn [no_lead]. rewrite <- is_space_lower_char.
  unfold sql_keywords in Hin. simpl in Hin.
  unfold kw_ws_at in H.
  repeat (destruct Hin as [<-|Hin];
          [ cbn [ci_strip_prefix] in H;
            destruct (Ascii.eqb _ (lower_char c)) eqn:E; [|discriminate];
            apply Ascii.eqb_eq in E; rewrite <- E; reflexivity |]).
  contradiction.
Qed.

(** *** The keyword search *)

Lemma extract_statement_first (before after : list string) (kw s : string) (p : nat) :
  (forall kw', In kw' before -> re_search_kw kw' s = None) ->
  re_search_kw kw s = Some p ->
  extract_statement (before ++ kw :: after) s = strip (drop p s).
Proof.
  intros Hnone Hkw. induction before as [|b before IH]; cbn [app extract_statement].
  - now rewrite Hkw.
  - rewrite (Hnone b (or_introl eq_refl)). apply IH.
    intros kw' Hin. apply Hnone. now right.
Qed.

Lemma extract_statement_none (keywords : list string) (s : string) :
  (forall kw, In kw keywords -> re_search_kw kw s = None) ->
  extract_statement keywords s = s.
Proof.
  induction keywords as [|b rest IH]; intro H; cbn [extract_statement]; [reflexivity|].
  rewrite (H b (or_introl eq_refl)). apply IH. intros kw Hin. apply H. now right.
Qed.

(** Where the earliest keyword followed by whitespace stands, the search
    for that very keyword stops. *)
Lemma earliest_is_leftmost (kw s : string) (p : nat) :
  In kw sql_keywords ->
  first_keyword_ws_pos s = Some p ->
  kw_ws_at kw (drop p s) = true ->
  re_search_kw kw s = Some p.
Proof.
  intros Hin Hfirst Hat.
  destruct (find_from_sound _ _ _ Hfirst) as [_ Hbefore].
  apply find_from_complete; [exact Hat|].
  intros q Hq. specialize (Hbefore q Hq).
  unfold keyword_ws_at in Hbefore.
  destruct (kw_ws_at kw (drop q s)) eqn:E; [|reflexivity].
  assert (existsb (fun kw0 => kw_ws_at kw0 (drop q s)) sql_keywords = true)
    by (apply existsb_exists; eauto).
  congruence.
Qed.

(** C3 as stated fails.  A keyword that is part of a longer word is not
    recognized, and the earliest occurrence loses to a keyword that is
    listed before it. *)
Lemma cleanup_earliest_keyword_counterexample :
  (first_keyword_pos "The selected rows: SELECT a FROM t" = Some 4
   /\ cleanup "The selected rows: SELECT a FROM t" = "SELECT a FROM t"
   /\ "SELECT a FROM t" <> drop 4 "The selected rows: SELECT a FROM t")
  /\
  (first_keyword_pos "WITH t AS (SELECT 1) SELECT * FROM t" = Some 0
   /\ cleanup "WITH t AS (SELECT 1) SELECT * FROM t" = "SELECT 1) SELECT * FROM t"
   /\ "SELECT 1) SELECT * FROM t" <> drop 0 "WITH t AS (SELECT 1) SELECT * FROM t").
Proof.
  repeat split; try reflexivity; discriminate.
Qed.

(** ** Intent classification *)

Example classify_contract :
  classify_intent {| user_guide := ["export"; "report"]; contract := ["contract"; "expire"] |}
    "When does my contract expire for ACME Corp?" = CONTRACT_INFO.
Proof. reflexivity. Qed.

Example classify_user_guide :
  classify_intent {| user_guide := ["export"; "report"]; contract := ["contract"; "expire"] |}
    "How do I export a report?" = USER_GUIDE.
Proof. reflexivity. Qed.

Example classify_general :
  classify_intent {| user_guide := ["export"; "report"]; contract := ["contract"; "expire"] |}
    "Hello there" = GENERAL.
Proof. reflexivity. Qed.

Lemma list_sum_ones {A : Type} (l : list A) :
  list_sum (map (fun _ => 1) l) = List.length l.
Proof. induction l as [|a l IH]; simpl; [reflexivity | now rewrite IH]. Qed.

(** The score that [classify_intent] computes is the match count. *)
Lemma match_count_score (query : string) (keywords : list string) :
  MatchCount query keywords (keyword_score keywords (lower query)).
Proof.
  unfold keyword_score. rewrite list_sum_ones.
  induction keywords as [|kw kws IH]; cbn [filter]; [constructor|].
  destruct (py_in (lower kw) (lower query)) eqn:E.
  - apply MatchCount_hit; [now apply py_in_lower_spec | exact IH].
  - apply MatchCount_miss; [|exact IH].
    intro H. apply py_in_lower_spec in H. congruence.
Qed.

Lemma match_count_unique (query : string) (keywords : list string) (n m : nat) :
  MatchCount query keywords n -> MatchCount query keywords m -> n = m.
Proof.
  intro Hn. revert m.
  induction Hn as [|kw kws n Hocc _ IH|kw kws n Hocc _ IH]; intros m Hm;
    inversion Hm; subst; try contradiction; auto.
Qed.

(** ** Conversation memory *)

Section Memory.

Variable llm_classification : string -> Outcome string.
Variable handle_user_guide_query : string -> Outcome string.
Variable handle_contract_query : string -> string.
Variable handle_general_query : string -> Outcome string.

(** Each completed request stores its question and its answer, in this
    order, after what is already there; nothing is ever removed. *)
Lemma process_all_messages (queries : list string) :
  forall (self final : CustomerServiceChatbot) (rs : list Response)
         (m : ConversationBufferWindowMemory),
    memory self = Some m ->
    process_all llm_classification handle_user_guide_query
      handle_contract_query handle_general_query self queries = Some (rs, final) ->
    memory final
    = Some {| k := k m;
              messages := (messages m ++ flat_map exchange_messages rs)%list |}
    /\ map resp_query rs = queries.
Proof.
  induction queries as [|q rest IH]; intros self final rs m Hm Hrun;
    cbn [process_all] in Hrun.
  - injection Hrun as <- <-. simpl. rewrite app_nil_r, Hm.
    split; [now destruct m | reflexivity].
  - destruct (process_query _ _ _ _ self q false) as [[r|e] self'] eqn:Hstep;
      [|discriminate].
    destruct (process_all _ _ _ _ self' rest) as [[rs' final']|] eqn:Hrest;
      [|discriminate].
    injection Hrun as <- <-.
    unfold process_query in Hstep.
    destruct (match classify_intent (intent_keywords self) q with
              | USER_GUIDE => handle_user_guide_query q
              | CONTRACT_INFO => Return (handle_contract_query q)
              | GENERAL => handle_general_query q
              end) as [answer|e]; [|discriminate].
    injection Hstep as <- <-.
    assert (Hm' : memory {| intent_keywords := intent_keywords self;
                            memory := option_map (fun m0 => save_context m0 q answer)
                                                 (memory self) |}
                  = Some (save_context m q answer))
      by (simpl; now rewrite Hm).
    destruct (IH _ _ _ _ Hm' Hrest) as [Hfinal Hq].
    split.
    + rewrite Hfinal. simpl. now rewrite <- app_assoc.
    + simpl. now rewrite Hq.
Qed.

End Memory.

Lemma skipn_exchanges (n : nat) (rs : list Response) :
  skipn (2 * n) (flat_map exchange_messages rs)
  = flat_map exchange_messages (skipn n rs).
Proof.
  revert rs; induction n as [|n IH]; intros rs; [reflexivity|].
  destruct rs as [|r rs]; [reflexivity|].
  replace (2 * S n) with (S (S (2 * n))) by lia. simpl. apply IH.
Qed.

Lemma length_exchanges (rs : list Response) :
  List.length (flat_map exchange_messages rs) = 2 * List.length rs.
Proof. induction rs as [|r rs IH]; simpl; [reflexivity | rewrite IH; lia]. Qed.

Lemma entries_of_exchanges (rs : list Response) :
  flat_map history_entries (flat_map exchange_messages rs)
  = flat_map exchange_entries rs.
Proof. induction rs as [|r rs IH]; simpl; [reflexivity | now rewrite IH]. Qed.

Lemma length_exchange_entries (rs : list Response) :
  List.length (flat_map exchange_entries rs) = 2 * List.length rs.
Proof. induction rs as [|r rs IH]; simpl; [reflexivity | rewrite IH; lia]. Qed.

(** C7 (as the library has it).  With a window of [w >= 1], after any run
    of completed requests the history shows the most recent [w] exchanges
    and nothing else, oldest first, each as a user entry followed by an
    assistant entry: its length is twice the smaller of [w] and the number
    of requests. *)
Theorem history_window
    (llm_classification : string -> Outcome string)
    (handle_user_guide_query : string -> Outcome string)
    (handle_contract_query : string -> string)
    (handle_general_query : string -> Outcome string)
    (self final : CustomerServiceChatbot) (w : Z)
    (queries : list string) (rs : list Response) :
  (0 < w)%Z ->
  memory self = Some {| k := w; messages := [] |} ->
  process_all llm_classification handle_user_guide_query
    handle_contract_query handle_general_query self queries = Some (rs, final) ->
  map resp_query rs = queries
  /\ get_conversation_history final
     = flat_map exchange_entries (skipn (List.length rs - Z.to_nat w) rs)
  /\ List.length (get_conversation_history final)
     = 2 * Nat.min (List.length queries) (Z.to_nat w).
Proof.
  intros Hw Hm Hrun.
  destruct (process_all_messages _ _ _ _ _ _ _ _ _ Hm Hrun) as [Hfinal Hq].
  simpl in Hfinal.
  assert (Hhist : get_conversation_history final
                  = flat_map exchange_entries (skipn (List.length rs - Z.to_nat w) rs)).
  { unfold get_conversation_history. rewrite Hfinal.
    unfold load_history. cbn [k messages].
    destruct (Z.ltb_spec 0 w) as [_|]; [|lia].
    rewrite length_exchanges.
    replace (2 * List.length rs - Z.to_nat (w * 2))
      with (2 * (List.length rs - Z.to_nat w)) by lia.
    now rewrite skipn_exchanges, entries_of_exchanges. }
  split; [exact Hq|]. split; [exact Hhist|].
  rewrite Hhist, length_exchange_entries, length_skipn, <- Hq, length_map. lia.
Qed.

Lemma history_window_witness :
  get_conversation_history
    {| intent_keywords := {| user_guide := []; contract := [] |};
       memory := Some {| k := 2; messages :=
         [HumanMessage "a"; AIMessage "ok"; HumanMessage "b"; AIMessage "ok";
          HumanMessage "c"; AIMessage "ok"] |} |}
  = [ {| role := "user"; content := "b" |}; {| role := "assistant"; content := "ok" |};
      {| role := "user"; content := "c" |}; {| role := "assistant"; content := "ok" |} ].
Proof.
  apply (proj1 (proj2 (history_window
           (fun _ => Return "GENERAL") (fun _ => Return "ok") (fun _ => "ok")
           (fun _ => Return "ok")
           {| intent_keywords := {| user_guide := []; contract := [] |};
              memory := Some {| k := 2; messages := [] |} |}
           _ 2 ["a"; "b"; "c"] _ ltac:(lia) eq_refl eq_refl))).
Defined.

(** C7 as stated fails: with a window of 1, two completed requests leave a
    history of two entries, not one. *)
Lemma history_window_counterexample :
  exists rs final,
    process_all (fun _ => Return "GENERAL") (fun _ => Return "ok") (fun _ => "ok")
      (fun _ => Return "ok")
      {| intent_keywords := {| user_guide := []; contract := [] |};
         memory := _initialize_memory
                     {| enable_conversation_memory := Some true;
                        max_history_length := Some 1%Z |} |}
      ["first"; "second"] = Some (rs, final)
    /\ List.length rs = 2
    /\ get_conversation_history final
       = [ {| role := "user"; content := "second" |};
           {| role := "assistant"; content := "ok" |} ]
    /\ List.length (get_conversation_history final) <> 1.
Proof.
  eexists _, _. split; [reflexivity|]. repeat split. discriminate.
Qed.

(** ** Index construction *)

(** C8. With no document loaded, [create_vector_store] raises the
    no-documents [ValueError]; it calls neither the splitter nor an index
    builder, and the object, its vector store included, is as before. *)
Theorem create_vector_store_requires_documents
    (Document VectorStore : Type)
    (split_documents : Z -> Z -> list Document -> Outcome (list Document))
    (chroma_from_documents : list Document -> string -> string -> Outcome VectorStore)
    (faiss_from_documents : list Document -> Outcome VectorStore)
    (faiss_save_local : VectorStore -> string -> Outcome unit)
    (self : RAGSystem Document VectorStore) :
  documents self = [] ->
  create_vector_store split_documents chroma_from_documents
    faiss_from_documents faiss_save_local self
  = (Raise (ValueError no_documents_message), self, []).
Proof.
  intro H. unfold create_vector_store. now rewrite H.
Qed.

Lemma create_vector_store_requires_documents_witness :
  create_vector_store
    (fun _ _ (docs : list string) => Return docs)
    (fun docs _ _ => Return (List.length docs))
    (fun docs => Return (List.length docs))
    (fun _ _ => Return tt)
    {| vector_config := {| store_type := Some "faiss"; chunk_size := None;
                           chunk_overlap := None; persist_directory := None;
                           collection_name := None |};
       vector_store := Some 7;
       documents := [] |}
  = (Raise (ValueError no_documents_message),
     {| vector_config := {| store_type := Some "faiss"; chunk_size := None;
                            chunk_overlap := None; persist_directory := None;
                            collection_name := None |};
        vector_store := Some 7;
        documents := [] |},
     []).
Proof.
  apply (create_vector_store_requires_documents string nat). reflexivity.
Defined.

Example create_vector_store_builds :
  create_vector_store
    (fun _ _ (docs : list string) => Return docs)
    (fun docs _ _ => Return (List.length docs))
    (fun docs => Return (List.length docs))
    (fun _ _ => Return tt)
    {| vector_config := {| store_type := Some "FAISS"; chunk_size := None;
                           chunk_overlap := None; persist_directory := None;
                           collection_name := None |};
       vector_store := None;
       documents := ["guide"] |}
  = (Return tt,
     {| vector_config := {| store_type := Some "FAISS"; chunk_size := None;
                            chunk_overlap := None; persist_directory := None;
                            collection_name := None |};
        vector_store := Some 1;
        documents := ["guide"] |},
     [SplitDocuments; FaissFromDocuments; FaissSaveLocal]).
Proof. reflexivity. Qed.

(** ** Result formatting *)

Section FormatFacts.

Variable V : Type.
Variable str : V -> string.

Lemma fold_append_lines (f : string * V -> string) (row : Row V) (acc : list string) :
  fold_left (fun acc0 kv => (acc0 ++ [f kv])%list) row acc = (acc ++ map f row)%list.
Proof.
  revert acc; induction row as [|kv row IH]; intro acc; simpl.
  - now rewrite app_nil_r.
  - rewrite IH, <- app_assoc. reflexivity.
Qed.

Lemma append_block_lines (acc : list string) (ir : nat * Row V) :
  append_block str acc ir
  = (acc ++ header_line (fst ir) :: map (indented_line str) (snd ir))%list.
Proof.
  unfold append_block. rewrite fold_append_lines, <- app_assoc. reflexivity.
Qed.

Lemma fold_append_blocks (l : list (nat * Row V)) (acc : list string) :
  fold_left (append_block str) l acc
  = (acc ++ flat_map (fun ir => header_line (fst ir) :: map (indented_line str) (snd ir)) l)%list.
Proof.
  revert acc; induction l as [|ir l IH]; intro acc; simpl.
  - now rewrite app_nil_r.
  - rewrite IH, append_block_lines, <- app_assoc. reflexivity.
Qed.

Lemma enumerate_combine (start : nat) (results : list (Row V)) :
  enumerate start results = combine (seq start (List.length results)) results.
Proof.
  revert start; induction results as [|r rest IH]; intro start; simpl;
    [reflexivity | now rewrite IH].
Qed.

End FormatFacts.

(** C9. No row gives the no-results message.  One row gives its
    [key: value] lines, one per column, joined by newlines.  Two rows or
    more give, joined by newlines, for the i-th row (from 1) a header
    [Result i:] on a fresh line followed by the row's [key: value] lines
    indented by two spaces. *)
Theorem format_results_layout (V : Type) (str : V -> string) :
  format_results str [] = "No results found."
  /\ (forall row : Row V,
        format_results str [row] = join (String LF "") (map (flat_line str) row)
        /\ List.length (map (flat_line str) row) = List.length row)
  /\ (forall (r1 r2 : Row V) (rest : list (Row V)),
        format_results str (r1 :: r2 :: rest)
        = join (String LF "") (numbered_blocks str (r1 :: r2 :: rest)))
  /\ (forall (i : nat) (kv : string * V),
        header_line i = String LF ("Result " ++ str_of_nat i ++ ":")
        /\ flat_line str kv = fst kv ++ ": " ++ str (snd kv)
        /\ indented_line str kv = "  " ++ fst kv ++ ": " ++ str (snd kv)).
Proof.
  split; [reflexivity|]. split; [|split].
  - intro row. split; [reflexivity | apply length_map].
  - intros r1 r2 rest. unfold format_results, numbered_blocks.
    now rewrite fold_append_blocks, enumerate_combine.
  - intros i kv. repeat split.
Qed.

Example format_two_rows :
  format_results (fun v => match v with VStr s => s | _ => "?" end)
    [ [("customer_name", VStr "ACME Corp"); ("module_name", VStr "Reporting Suite")];
      [("customer_name", VStr "Initech")] ]
  = String LF ("Result 1:" ++ String LF ("  customer_name: ACME Corp" ++ String LF
      ("  module_name: Reporting Suite" ++ String LF (String LF ("Result 2:" ++ String LF
      "  customer_name: Initech"))))).
Proof. reflexivity. Qed.

(** * Further properties *)

(** ** Slices of a text *)

Lemma is_slice_refl (s : string) : is_slice s s.
Proof. exists "", "". simpl. now rewrite append_nil_r. Qed.

Lemma is_slice_trans (a b c : string) : is_slice a b -> is_slice b c -> is_slice a c.
Proof.
  intros (p1 & q1 & ->) (p2 & q2 & ->).
  exists (p2 ++ p1), (q1 ++ q2). now rewrite !append_assoc.
Qed.

Lemma take_drop (n : nat) (s : string) : take n s ++ drop n s = s.
Proof.
  revert s; induction n as [|n IH]; intros [|c t]; simpl; try reflexivity.
  now rewrite IH.
Qed.

Lemma drop_slice (n : nat) (s : string) : is_slice (drop n s) s.
Proof. exists (take n s), "". now rewrite append_nil_r, take_drop. Qed.

Lemma take_slice (n : nat) (s : string) : is_slice (take n s) s.
Proof. exists "", (drop n s). simpl. now rewrite take_drop. Qed.

Lemma lstrip_slice (s : string) : is_slice (lstrip s) s.
Proof.
  induction s as [|c t IH]; [apply is_slice_refl|].
  cbn [lstrip]. destruct (is_space c); [|apply is_slice_refl].
  apply (is_slice_trans _ t); [exact IH | apply (drop_slice 1 (String c t))].
Qed.

Lemma rstrip_prefix (s : string) : exists w, s = rstrip s ++ w.
Proof.
  induction s as [|c t [w IH]]; [now exists ""|].
  cbn [rstrip]. destruct (rstrip t) as [|d r] eqn:R.
  - destruct (is_space c); [now exists (String c t)|].
    exists w. simpl in *. now rewrite <- IH.
  - exists w. simpl in *. now rewrite <- IH.
Qed.

Lemma rstrip_slice (s : string) : is_slice (rstrip s) s.
Proof. destruct (rstrip_prefix s) as [w E]. now exists "", w. Qed.

Lemma strip_slice (s : string) : is_slice (strip s) s.
Proof.
  unfold strip. apply (is_slice_trans _ (lstrip s));
    [apply rstrip_slice | apply lstrip_slice].
Qed.

Lemma split_after_slice (sep s r : string) :
  split_after sep s = Some r -> is_slice r s.
Proof.
  revert r; induction s as [|c t IH]; intros r; cbn [split_after].
  - destruct (String.prefix sep ""); [|discriminate].
    intros [= <-]. apply drop_slice.
  - destruct (String.prefix sep (String c t)).
    + intros [= <-]. apply drop_slice.
    + intro H. apply (is_slice_trans _ t); [now apply IH|].
      apply (drop_slice 1 (String c t)).
Qed.

Lemma strip_of_slice (t s : string) : is_slice t s -> is_slice (strip t) s.
Proof. intro H. apply (is_slice_trans _ t); [apply strip_slice | exact H]. Qed.

Lemma after_marker_slice (s : string) : is_slice (after_marker s) s.
Proof.
  unfold after_marker. destruct (py_in _ s); [|apply is_slice_refl].
  destruct (split_after _ s) eqn:E; [|apply is_slice_refl].
  apply strip_of_slice. now apply split_after_slice with "SQLQuery:".
Qed.

Lemma remove_opening_fence_slice (s : string) : is_slice (remove_opening_fence s) s.
Proof.
  unfold remove_opening_fence.
  destruct (startswith _ s); [apply strip_of_slice, drop_slice|].
  destruct (startswith _ s); [apply strip_of_slice, drop_slice | apply is_slice_refl].
Qed.

Lemma remove_closing_fence_slice (s : string) : is_slice (remove_closing_fence s) s.
Proof.
  unfold remove_closing_fence, drop_last.
  destruct (endswith _ s); [apply strip_of_slice, take_slice | apply is_slice_refl].
Qed.

Lemma remove_prefix_slice (prefixes : list string) (s : string) :
  is_slice (remove_prefix prefixes s) s.
Proof.
  induction prefixes as [|x rest IH]; cbn [remove_prefix]; [apply is_slice_refl|].
  destruct (startswith x s); [apply strip_of_slice, drop_slice | exact IH].
Qed.

(** What the keyword loop returns: the text as it came, or the stripped
    rest from the leftmost match of the first keyword that matches. *)
Lemma extract_statement_cases (keywords : list string) (s : string) :
  (extract_statement keywords s = s
   /\ forall kw, In kw keywords -> re_search_kw kw s = None)
  \/ (exists kw p, In kw keywords /\ re_search_kw kw s = Some p
                   /\ extract_statement keywords s = strip (drop p s)).
Proof.
  induction keywords as [|k rest IH]; cbn [extract_statement].
  - left. split; [reflexivity | intros kw []].
  - destruct (re_search_kw k s) as [p|] eqn:E.
    + right. exists k, p. repeat split; auto. now left.
    + destruct IH as [[H1 H2] | (kw & p & Hin & Hs & Hr)].
      * left. split; [exact H1|]. intros kw [<-|Hin]; auto.
      * right. exists kw, p. repeat split; auto. now right.
Qed.

Lemma extract_statement_slice (keywords : list string) (s : string) :
  is_slice (extract_statement keywords s) s.
Proof.
  destruct (extract_statement_cases keywords s) as [[-> _] | (kw & p & _ & _ & ->)];
    [apply is_slice_refl | apply strip_of_slice, drop_slice].
Qed.

(** ** More on the cleanup pass *)

(** X1. The cleanup pass only removes text: what it returns is a
    contiguous part of the model output. *)
Theorem cleanup_is_slice (raw : string) : is_slice (cleanup raw) raw.
Proof.
  unfold cleanup, before_extraction.
  eapply is_slice_trans; [apply extract_statement_slice|].
  eapply is_slice_trans; [apply remove_prefix_slice|].
  eapply is_slice_trans; [apply remove_closing_fence_slice|].
  eapply is_slice_trans; [apply remove_opening_fence_slice|].
  eapply is_slice_trans; [apply after_marker_slice | apply strip_slice].
Qed.

(** X2. The cleaned statement has no leading and no trailing whitespace. *)
Theorem cleanup_stripped (raw : string) : strip (cleanup raw) = cleanup raw.
Proof.
  unfold cleanup.
  destruct (extract_statement_cases sql_keywords (before_extraction raw))
    as [[-> _] | (kw & p & _ & _ & ->)].
  - apply before_extraction_stripped.
  - apply strip_idem.
Qed.

Lemma sql_keywords_search (s : string) (p : nat) :
  first_keyword_ws_pos s = Some p ->
  exists kw q, In kw sql_keywords /\ re_search_kw kw s = Some q.
Proof.
  intro H. destruct (find_from_sound _ _ _ H) as [Hat _].
  unfold keyword_ws_at in Hat. apply existsb_exists in Hat as (kw & Hin & Hkw).
  exists kw, p. split; [exact Hin|].
  now apply earliest_is_leftmost.
Qed.

(** ** More on the safety gate *)

Lemma ci_substring_slice (kw t s : string) :
  is_slice t s -> ci_substring kw t -> ci_substring kw s.
Proof.
  intros (pre & post & ->) (a & mid & b & -> & H).
  exists (pre ++ a), mid, (b ++ post). split; [|exact H].
  now rewrite !append_assoc.
Qed.

(** X4. A text with a refused part is refused: wrapping an unsafe
    statement in more text never gets it past the check. *)
Theorem unsafe_slice_unsafe (t s : string) :
  is_slice t s -> _is_safe_query t = false -> _is_safe_query s = false.
Proof.
  intros Hslice Ht. apply is_safe_query_false_iff in Ht as (kw & Hin & Hocc).
  apply is_safe_query_false_iff. exists kw. split; [exact Hin|].
  now apply ci_substring_slice with t.
Qed.

Lemma unsafe_slice_unsafe_witness :
  _is_safe_query "SELECT 1; drop table contracts; --" = false.
Proof.
  apply (unsafe_slice_unsafe "drop table contracts").
  - exists "SELECT 1; ", "; --". reflexivity.
  - reflexivity.
Defined.

(** X5. The verdict of the check does not depend on the case of the
    letters: two queries that differ only in case get the same verdict. *)
Theorem is_safe_query_case_blind (a b : string) :
  ci_eq a b -> _is_safe_query a = _is_safe_query b.
Proof.
  unfold ci_eq; intro H. unfold _is_safe_query.
  now rewrite <- (upper_lower a), H, upper_lower.
Qed.

Lemma is_safe_query_case_blind_witness :
  _is_safe_query "Select * From Contracts" = _is_safe_query "SELECT * FROM CONTRACTS".
Proof. apply is_safe_query_case_blind. reflexivity. Defined.

(** ** Construction of the SQL system *)

(** X6. The constructor raises exactly for a database type other than
    postgresql, mysql and sqlite (compared in lower case), and then with
    the unsupported-type [ValueError].  Otherwise it always returns, even
    when the engine or the wrapper cannot be created, and the object has
    either both an engine and a database wrapper or neither: translation
    and execution are in mock mode together. *)
Theorem init_modes
    (Engine Db : Type)
    (create_engine : string -> Outcome Engine)
    (SQLDatabase : Engine -> Outcome Db)
    (config : SqlConfig) :
  let db_type := lower (Rag.get (cfg_type config) "postgresql") in
  (In db_type supported_db_types ->
   exists self,
     init create_engine SQLDatabase config = Return self
     /\ schema_description _ _ self = Rag.get (cfg_schema_description config) ""
     /\ ((engine self = None /\ db self = None)
         \/ exists e d, engine self = Some e /\ db self = Some d
                        /\ SQLDatabase e = Return d))
  /\ (~ In db_type supported_db_types ->
      init create_engine SQLDatabase config
      = Raise (ValueError ("Unsupported database type: " ++ db_type))).
Proof.
  intro db_type. unfold init, _initialize_connection. fold db_type.
  split.
  - intro Hin.
    assert (Hc : exists cs,
               (if String.eqb db_type "postgresql"
                then Return (_build_postgres_connection_string config)
                else if String.eqb db_type "mysql"
                then Return (_build_mysql_connection_string config)
                else if String.eqb db_type "sqlite"
                then Return (_build_sqlite_connection_string config)
                else Raise (ValueError ("Unsupported database type: " ++ db_type)))
               = Return cs).
    { unfold supported_db_types in Hin. simpl in Hin.
      destruct Hin as [<- | [<- | [<- | []]]]; simpl; eauto. }
    destruct Hc as [cs ->].
    destruct (create_engine cs) as [e|].
    + destruct (SQLDatabase e) as [d|] eqn:Hd.
      * eexists. split; [reflexivity|]. split; [reflexivity|].
        right. exists e, d. auto.
      * eexists. split; [reflexivity|]. split; [reflexivity|]. now left.
    + eexists. split; [reflexivity|]. split; [reflexivity|]. now left.
  - intro Hnot.
    destruct (String.eqb_spec db_type "postgresql") as [E|_];
      [elim Hnot; rewrite E; simpl; tauto|].
    destruct (String.eqb_spec db_type "mysql") as [E|_];
      [elim Hnot; rewrite E; simpl; tauto|].
    destruct (String.eqb_spec db_type "sqlite") as [E|_];
      [elim Hnot; rewrite E; simpl; tauto|].
    reflexivity.
Qed.

Lemma init_modes_witness :
  (exists self,
      init (fun _ => Raise (OtherException "connection refused"))
           (fun e : unit => Return e)
           {| cfg_type := Some "SQLite"; cfg_host := None; cfg_port := None;
              cfg_database := None; cfg_username := None; cfg_password := None;
              cfg_schema_description := Some "contracts(contract_id, ...)" |}
      = Return self
      /\ schema_description _ _ self = "contracts(contract_id, ...)"
      /\ ((engine self = None /\ db self = None)
          \/ exists e d, engine self = Some e /\ db self = Some d
                         /\ (fun e : unit => Return e) e = Return d))
  /\ init (fun _ => Return tt) (fun e : unit => Return e)
          {| cfg_type := Some "Oracle"; cfg_host := None; cfg_port := None;
             cfg_database := None; cfg_username := None; cfg_password := None;
             cfg_schema_description := None |}
     = Raise (ValueError "Unsupported database type: oracle").
Proof.
  split.
  - apply (proj1 (init_modes unit unit
                    (fun _ => Raise (OtherException "connection refused"))
                    (fun e => Return e)
                    {| cfg_type := Some "SQLite"; cfg_host := None; cfg_port := None;
                       cfg_database := None; cfg_username := None;
                       cfg_password := None;
                       cfg_schema_description := Some "contracts(contract_id, ...)" |})).
    simpl. tauto.
  - apply (proj2 (init_modes unit unit (fun _ => Return tt) (fun e => Return e)
                    {| cfg_type := Some "Oracle"; cfg_host := None; cfg_port := None;
                       cfg_database := None; cfg_username := None;
                       cfg_password := None; cfg_schema_description := None |})).
    simpl. intros [H | [H | [H | []]]]; discriminate.
Defined.

Example postgres_connection_string :
  _build_postgres_connection_string
    {| cfg_type := None; cfg_host := None; cfg_port := None;
       cfg_database := Some "crm"; cfg_username := Some "bot";
       cfg_password := Some "pw"; cfg_schema_description := None |}
  = "postgresql://bot:pw@localhost:5432/crm".
Proof. reflexivity. Qed.

(** ** More on result formatting *)

Lemma join_slice (sep line : string) (lines : list string) :
  In line lines -> is_slice line (join sep lines).
Proof.
  induction lines as [|p rest IH]; [intros []|].
  destruct rest as [|r rest'].
  - intros [<- | []]. apply is_slice_refl.
  - intros [<- | Hin].
    + exists "", (sep ++ join sep (r :: rest')). reflexivity.
    + destruct (IH Hin) as (pre & post & E).
      exists (p ++ sep ++ pre), post.
      change (join sep (p :: r :: rest')) with (p ++ sep ++ join sep (r :: rest')).
      rewrite E. now rewrite !append_assoc.
Qed.

Section Cells.

Variable V : Type.
Variable str : V -> string.

Lemma format_results_blocks (r1 r2 : Row V) (rest : list (Row V)) :
  format_results str (r1 :: r2 :: rest)
  = join (String LF "") (numbered_blocks str (r1 :: r2 :: rest)).
Proof.
  unfold format_results, numbered_blocks.
  now rewrite fold_append_blocks, enumerate_combine.
Qed.

Lemma in_numbered_blocks (rows : list (Row V)) (row : Row V) (kv : string * V) :
  In row rows -> In kv row -> In (indented_line str kv) (numbered_blocks str rows).
Proof.
  intros Hrow Hkv. unfold numbered_blocks.
  generalize 1 as start. induction rows as [|r rows IH]; intro start; [destruct Hrow|].
  cbn [List.length seq combine flat_map].
  apply in_or_app. destruct Hrow as [-> | Hrow].
  - left. right. now apply in_map.
  - right. now apply IH.
Qed.

End Cells.

Lemma format_results_cell
    (V : Type) (str : V -> string)
    (rows : list (Row V)) (row : Row V) (kv : string * V) :
  In row rows -> In kv row ->
  is_slice (flat_line str kv) (format_results str rows).
Proof.
  intros Hrow Hkv.
  destruct rows as [|r1 [|r2 rest]]; [destruct Hrow| |].
  - destruct Hrow as [-> | []]. cbn [format_results].
    apply join_slice. apply (in_map (flat_line str) _ _ Hkv).
  - rewrite format_results_blocks.
    apply (is_slice_trans _ (indented_line str kv)).
    + exists "  ", "". unfold indented_line. now rewrite append_nil_r.
    + apply join_slice. now apply in_numbered_blocks with row.
Qed.

(** X7. Formatting loses no cell: for every row of a non-empty result and
    every column of that row, the text contains [key: value], with the value
    as [str] prints it. *)
Theorem format_results_shows_every_cell
    (V : Type) (str : V -> string)
    (rows : list (Row V)) (row : Row V) (kv : string * V) :
  In row rows -> In kv row ->
  is_slice (fst kv ++ ": " ++ str (snd kv)) (format_results str rows).
Proof. exact (format_results_cell V str rows row kv). Qed.

Lemma format_results_shows_every_cell_witness :
  is_slice ("module_name" ++ ": " ++ "Reporting Suite")
    (format_results (fun v => match v with VStr s => s | _ => "?" end)
       (_generate_mock_results "select modules")).
Proof.
  apply (format_results_shows_every_cell Value
           (fun v => match v with VStr s => s | _ => "?" end)
           (_generate_mock_results "select modules")
           [("customer_name", VStr "ACME Corp");
            ("module_name", VStr "Reporting Suite");
            ("purchased_date", VStr "2023-03-22")]
           ("module_name", VStr "Reporting Suite")).
  - simpl. tauto.
  - simpl. tauto.
Defined.

Lemma format_results_of_rows
    (V : Type) (str : V -> string) (rows : list (Row V)) :
  format_results str rows = "No results found." -> rows = [].
Proof.
  destruct rows as [|r1 [|r2 rest]]; [reflexivity| |]; intro H; exfalso.
  - destruct r1 as [|kv r1].
    + discriminate H.
    + assert (Hs : is_slice (fst kv ++ ": " ++ str (snd kv)) "No results found.")
        by (rewrite <- H;
            apply (format_results_cell V str [kv :: r1] (kv :: r1) kv); now left).
      assert (Hc : is_slice ": " "No results found.").
      { apply (is_slice_trans _ (fst kv ++ ": " ++ str (snd kv))); [|exact Hs].
        exists (fst kv), (str (snd kv)). reflexivity. }
      apply py_in_spec in Hc. vm_compute in Hc. discriminate.
  - rewrite format_results_blocks in H.
    unfold numbered_blocks in H.
    cbn [List.length seq combine flat_map app] in H.
    unfold header_line in H at 1.
    match type of H with
    | join _ (_ :: ?L) = _ => destruct L; simpl in H; discriminate H
    end.
Qed.

(** X8. The no-results message stands for an empty result and for nothing
    else: no row, whatever its keys and values, is formatted to it. *)
Theorem format_results_no_results_iff
    (V : Type) (str : V -> string) (rows : list (Row V)) :
  format_results str rows = "No results found." <-> rows = [].
Proof.
  split; [apply format_results_of_rows | now intros ->].
Qed.

Lemma format_results_no_results_iff_witness :
  @nil (Row Value) = [].
Proof.
  apply (proj1 (format_results_no_results_iff Value (fun _ => "?") [])).
  reflexivity.
Defined.

(** ** The composed translation, execution and formatting *)

Lemma mock_results_customer (sql_query : string) :
  exists row, In row (_generate_mock_results sql_query)
              /\ In ("customer_name", VStr "ACME Corp") row.
Proof.
  unfold _generate_mock_results.
  destruct (py_in "modules" (lower sql_query));
    [eexists; split; [left; reflexivity | simpl; tauto]|].
  destruct (py_in "expiration" (lower sql_query));
    [eexists; split; [left; reflexivity | simpl; tauto]|].
  destruct (py_in "pricing" (lower sql_query));
    eexists; (split; [left; reflexivity | simpl; tauto]).
Qed.

(** X9. In mock mode (no engine, no database wrapper) the composed call
    returns for every question: the statement is the mock query of the
    question, only the mock results are consulted, and the formatted text
    is never the no-results message and names the customer ACME Corp. *)
Theorem query_and_format_mock_mode
    (Engine Db LLM : Type)
    (run_chain : LLM -> Db -> string -> Outcome ChainOutput)
    (connection_execute : Engine -> string -> Outcome (list (Row Value)))
    (str : Value -> string) (not_a_string : PyExc)
    (self : SQLQuerySystem Engine Db) (question : string) (llm : LLM) :
  engine self = None -> db self = None ->
  (forall s, str (VStr s) = s) ->
  exists formatted,
    query_and_format run_chain connection_execute str not_a_string self question llm
    = (Return (_generate_mock_sql question, formatted),
       [MockResults (_generate_mock_sql question)])
    /\ formatted <> "No results found."
    /\ is_slice "customer_name: ACME Corp" formatted.
Proof.
  intros He Hd Hstr.
  exists (format_results str (_generate_mock_results (_generate_mock_sql question))).
  split; [|split].
  - unfold query_and_format, natural_language_to_sql, execute_query.
    now rewrite Hd, He, mock_sql_safe.
  - intro H. apply format_results_of_rows in H.
    destruct (mock_results_customer (_generate_mock_sql question)) as (row & Hin & _).
    rewrite H in Hin. destruct Hin.
  - destruct (mock_results_customer (_generate_mock_sql question)) as (row & Hin & Hkv).
    pose proof (format_results_cell Value str _ _ _ Hin Hkv) as Hs.
    unfold flat_line in Hs. cbn [fst snd] in Hs. now rewrite Hstr in Hs.
Qed.

Lemma query_and_format_mock_mode_witness :
  exists formatted,
    query_and_format (fun (_ _ : unit) (_ : string) => Return NonText)
      (fun (_ : unit) (_ : string) => Return [])
      (fun v => match v with VStr s => s | VInt z => str_of_Z z | VFloat _ _ => "25000.0" end)
      (OtherException "not a string")
      (Build_SQLQuerySystem unit unit None None "")
      "What modules have I purchased?" tt
    = (Return (_generate_mock_sql "What modules have I purchased?", formatted),
       [MockResults (_generate_mock_sql "What modules have I purchased?")])
    /\ formatted <> "No results found."
    /\ is_slice "customer_name: ACME Corp" formatted.
Proof.
  apply (query_and_format_mock_mode unit unit unit); reflexivity.
Defined.

(** X10. With a live engine, a statement that passes the check and fails
    in the database is reported like a statement without rows: the caller
    gets the no-results message, not an exception. *)
Theorem query_and_format_execution_failure
    (Engine Db LLM : Type)
    (run_chain : LLM -> Db -> string -> Outcome ChainOutput)
    (connection_execute : Engine -> string -> Outcome (list (Row Value)))
    (str : Value -> string) (not_a_string : PyExc)
    (self : SQLQuerySystem Engine Db) (e : Engine) (d : Db)
    (question raw : string) (llm : LLM) (failure : PyExc) :
  engine self = Some e -> db self = Some d ->
  run_chain llm d question = Return (Text raw) ->
  _is_safe_query (cleanup raw) = true ->
  connection_execute e (cleanup raw) = Raise failure ->
  query_and_format run_chain connection_execute str not_a_string self question llm
  = (Return (cleanup raw, "No results found."), [LiveExecute (cleanup raw)]).
Proof.
  intros He Hd Hchain Hsafe Hfail.
  unfold query_and_format, natural_language_to_sql, execute_query.
  now rewrite Hd, Hchain, Hsafe, He, Hfail.
Qed.

Lemma query_and_format_execution_failure_witness :
  query_and_format (fun (_ _ : unit) (_ : string) => Return (Text "SQLQuery: SELECT * FROM missing"))
    (fun (_ : unit) (_ : string) => Raise (OtherException "no such table: missing"))
    (fun _ => "?") (OtherException "not a string")
    (Build_SQLQuerySystem unit unit (Some tt) (Some tt) "")
    "Show everything" tt
  = (Return ("SELECT * FROM missing", "No results found."),
     [LiveExecute "SELECT * FROM missing"]).
Proof.
  apply (query_and_format_execution_failure unit unit unit _ _ _ _ _ tt tt
           "Show everything" "SQLQuery: SELECT * FROM missing" tt
           (OtherException "no such table: missing")); reflexivity.
Defined.

(** ** Document ingestion *)

Section IngestionFacts.

Variables Document VectorStore : Type.
Variable run_loader : Loader -> string -> Outcome (list Document).

Lemma load_loop (supported : list string) (entries : list FileEntry)
    (loaded : list Document) :
  fold_left (load_step run_loader supported) entries loaded
  = (loaded ++ flat_map (contribution run_loader)
                        (filter (eligible supported) entries))%list.
Proof.
  revert loaded; induction entries as [|f entries IH]; intro loaded;
    cbn [fold_left filter].
  - simpl. now rewrite app_nil_r.
  - rewrite IH. unfold load_step, eligible.
    destruct (is_file f && mem (suffix f) supported); [|reflexivity].
    cbn [flat_map]. unfold contribution.
    destruct (_load_single_document run_loader f).
    + now rewrite app_assoc.
    + reflexivity.
Qed.

End IngestionFacts.

(** X11. When the guides directory exists, [load_documents] returns: the
    loaded documents are, in directory order, those of every regular file
    whose suffix is literally in the configured formats and whose loader
    succeeds.  A file whose loader raises, or whose format has no loader,
    is left out without stopping the others.  The result replaces what was
    loaded before, the returned count is its length, and the vector store
    is not touched. *)
Theorem load_documents_skips_failures
    (Document VectorStore : Type)
    (rglob : string -> option (list FileEntry))
    (path_str : string -> string)
    (run_loader : Loader -> string -> Outcome (list Document))
    (documents_config : DocumentsConfig)
    (self : RAGSystem Document VectorStore)
    (entries : list FileEntry) :
  rglob (Rag.get (user_guides_path documents_config) "./data/user_guides")
  = Some entries ->
  let supported := Rag.get (supported_formats documents_config) [".txt"] in
  let docs := flat_map (contribution run_loader)
                       (filter (eligible supported) entries) in
  load_documents rglob path_str run_loader documents_config self
  = (Return (List.length docs),
     {| vector_config := vector_config self;
        vector_store := vector_store self;
        documents := docs |}).
Proof.
  intros Hdir supported docs. unfold load_documents. rewrite Hdir.
  fold supported. rewrite load_loop. reflexivity.
Qed.

Lemma load_documents_skips_failures_witness :
  load_documents
    (fun _ => Some [ {| file_path := "guides/a.txt"; suffix := ".txt"; is_file := true |};
                     {| file_path := "guides/broken.txt"; suffix := ".txt"; is_file := true |};
                     {| file_path := "guides/NOTES.TXT"; suffix := ".TXT"; is_file := true |};
                     {| file_path := "guides/sub"; suffix := ""; is_file := false |};
                     {| file_path := "guides/b.txt"; suffix := ".txt"; is_file := true |} ])
    (fun p => p)
    (fun _ path => if String.eqb path "guides/broken.txt"
                   then Raise (OtherException "cannot decode")
                   else Return [path])
    {| user_guides_path := Some "guides"; supported_formats := None |}
    {| vector_config := {| store_type := None; chunk_size := None;
                           chunk_overlap := None; persist_directory := None;
                           collection_name := None |};
       vector_store := @None nat;
       documents := ["stale"] |}
  = (Return 2,
     {| vector_config := {| store_type := None; chunk_size := None;
                            chunk_overlap := None; persist_directory := None;
                            collection_name := None |};
        vector_store := None;
        documents := ["guides/a.txt"; "guides/b.txt"] |}).
Proof.
  exact (load_documents_skips_failures string nat
           (fun _ => Some [ {| file_path := "guides/a.txt"; suffix := ".txt"; is_file := true |};
                            {| file_path := "guides/broken.txt"; suffix := ".txt"; is_file := true |};
                            {| file_path := "guides/NOTES.TXT"; suffix := ".TXT"; is_file := true |};
                            {| file_path := "guides/sub"; suffix := ""; is_file := false |};
                            {| file_path := "guides/b.txt"; suffix := ".txt"; is_file := true |} ])
           (fun p => p)
           (fun _ path => if String.eqb path "guides/broken.txt"
                          then Raise (OtherException "cannot decode")
                          else Return [path])
           {| user_guides_path := Some "guides"; supported_formats := None |}
           {| vector_config := {| store_type := None; chunk_size := None;
                                  chunk_overlap := None; persist_directory := None;
                                  collection_name := None |};
              vector_store := @None nat;
              documents := ["stale"] |}
           _ eq_refl).
Defined.

Example missing_guides_directory :
  load_documents (fun _ => None) (fun p => p) (fun _ path => Return [path])
    {| user_guides_path := None; supported_formats := None |}
    {| vector_config := {| store_type := None; chunk_size := None;
                           chunk_overlap := None; persist_directory := None;
                           collection_name := None |};
       vector_store := @None nat;
       documents := ["kept"] |}
  = (Raise (OtherException "User guides directory not found: ./data/user_guides"),
     {| vector_config := {| store_type := None; chunk_size := None;
                            chunk_overlap := None; persist_directory := None;
                            collection_name := None |};
        vector_store := None;
        documents := ["kept"] |}).
Proof. reflexivity. Qed.

(** ** Building and attaching the index *)

Section StoreFacts.

Variables Document VectorStore : Type.
Variable split_documents : Z -> Z -> list Document -> Outcome (list Document).
Variable chroma_from_documents :
  list Document -> string -> string -> Outcome VectorStore.
Variable faiss_from_documents : list Document -> Outcome VectorStore.
Variable faiss_save_local : VectorStore -> string -> Outcome unit.

Lemma create_chroma_store_cases (self : RAGSystem Document VectorStore)
    (chunks : list Document) :
  let '(out, self', _) :=
    _create_chroma_store _ _ chroma_from_documents self chunks in
  documents self' = documents self /\ vector_config self' = vector_config self
  /\ match out with
     | Return _ => exists vs, vector_store self' = Some vs
     | Raise _ => self' = self
     end.
Proof.
  unfold _create_chroma_store.
  destruct (chroma_from_documents _ _ _); simpl; eauto.
Qed.

Lemma create_faiss_store_cases (self : RAGSystem Document VectorStore)
    (chunks : list Document) :
  let '(out, self', _) :=
    _create_faiss_store _ _ faiss_from_documents faiss_save_local self chunks in
  documents self' = documents self /\ vector_config self' = vector_config self
  /\ match out with
     | Return _ => exists vs, vector_store self' = Some vs
     | Raise _ => True
     end.
Proof.
  unfold _create_faiss_store.
  destruct (faiss_from_documents _); simpl; [|auto].
  destruct (faiss_save_local _ _); simpl; eauto.
Qed.

(** What a call of [create_vector_store] leaves behind. *)
Lemma create_vector_store_cases (self : RAGSystem Document VectorStore) :
  let '(out, self', _) :=
    create_vector_store split_documents chroma_from_documents
      faiss_from_documents faiss_save_local self in
  documents self' = documents self /\ vector_config self' = vector_config self
  /\ match out with
     | Return _ => documents self <> [] /\ exists vs, vector_store self' = Some vs
     | Raise _ => True
     end.
Proof.
  unfold create_vector_store.
  destruct (documents self) as [|doc docs] eqn:Hdocs; [now rewrite Hdocs|].
  destruct (split_documents _ _ _) as [chunks|]; [|now rewrite Hdocs].
  destruct (String.eqb _ "chromadb").
  - pose proof (create_chroma_store_cases self chunks) as H.
    destruct (_create_chroma_store _ _ _ self chunks) as [[out self'] evs].
    destruct H as (H1 & H2 & H3). rewrite H1, Hdocs.
    repeat split; auto. destruct out; [split; [discriminate | exact H3] | exact I].
  - destruct (String.eqb _ "faiss").
    + pose proof (create_faiss_store_cases self chunks) as H.
      destruct (_create_faiss_store _ _ _ _ self chunks) as [[out self'] evs].
      destruct H as (H1 & H2 & H3). rewrite H1, Hdocs.
      repeat split; auto. destruct out; [split; [discriminate | exact H3] | exact I].
    + now rewrite Hdocs.
Qed.

End StoreFacts.

(** X12. When [create_vector_store] returns, documents had been loaded,
    the object has a vector store, and its documents and configuration are
    the ones it had. *)
Theorem create_vector_store_success
    (Document VectorStore : Type)
    (split_documents : Z -> Z -> list Document -> Outcome (list Document))
    (chroma_from_documents : list Document -> string -> string -> Outcome VectorStore)
    (faiss_from_documents : list Document -> Outcome VectorStore)
    (faiss_save_local : VectorStore -> string -> Outcome unit)
    (self self' : RAGSystem Document VectorStore) (events : list BuildEvent) :
  create_vector_store split_documents chroma_from_documents
    faiss_from_documents faiss_save_local self = (Return tt, self', events) ->
  documents self <> []
  /\ (exists vs, vector_store self' = Some vs)
  /\ documents self' = documents self
  /\ vector_config self' = vector_config self.
Proof.
  intro H.
  pose proof (create_vector_store_cases Document VectorStore split_documents
                chroma_from_documents faiss_from_documents faiss_save_local self) as C.
  rewrite H in C. destruct C as (H1 & H2 & H3 & H4). auto.
Qed.

Lemma create_vector_store_success_witness :
  [ "guide" ] <> []
  /\ (exists vs, Some 1 = Some vs)
  /\ [ "guide" ] = [ "guide" ]
  /\ {| store_type := Some "FAISS"; chunk_size := None; chunk_overlap := None;
        persist_directory := None; collection_name := None |}
     = {| store_type := Some "FAISS"; chunk_size := None; chunk_overlap := None;
          persist_directory := None; collection_name := None |}.
Proof.
  apply (create_vector_store_success string nat
           (fun _ _ docs => Return docs)
           (fun docs _ _ => Return (List.length docs))
           (fun docs => Return (List.length docs))
           (fun _ _ => Return tt)
           {| vector_config := {| store_type := Some "FAISS"; chunk_size := None;
                                  chunk_overlap := None; persist_directory := None;
                                  collection_name := None |};
              vector_store := None;
              documents := ["guide"] |}
           {| vector_config := {| store_type := Some "FAISS"; chunk_size := None;
                                  chunk_overlap := None; persist_directory := None;
                                  collection_name := None |};
              vector_store := Some 1;
              documents := ["guide"] |}
           [SplitDocuments; FaissFromDocuments; FaissSaveLocal]).
  reflexivity.
Defined.

Section AttachFacts.

Variables Document VectorStore : Type.
Variable chroma_open : string -> string -> Outcome VectorStore.
Variable faiss_load_local : string -> Outcome VectorStore.

(** Attaching either sets the store and reports success, or changes nothing. *)
Lemma load_existing_cases (self : RAGSystem Document VectorStore) :
  (exists vs, load_existing_vector_store chroma_open faiss_load_local self
              = (true, set_vector_store _ _ self vs))
  \/ load_existing_vector_store chroma_open faiss_load_local self = (false, self).
Proof.
  unfold load_existing_vector_store.
  destruct (String.eqb _ "chromadb").
  - destruct (chroma_open _ _); eauto.
  - destruct (String.eqb _ "faiss"); [|now right].
    destruct (faiss_load_local _); eauto.
Qed.

End AttachFacts.

(** X13. When [initialize_or_load] returns, the object has a vector
    store, so retrieval goes to the similarity search instead of raising
    the not-initialized error. *)
Theorem initialize_or_load_success
    (Document VectorStore : Type)
    (rglob : string -> option (list FileEntry))
    (path_str : string -> string)
    (run_loader : Loader -> string -> Outcome (list Document))
    (split_documents : Z -> Z -> list Document -> Outcome (list Document))
    (chroma_from_documents : list Document -> string -> string -> Outcome VectorStore)
    (faiss_from_documents : list Document -> Outcome VectorStore)
    (faiss_save_local : VectorStore -> string -> Outcome unit)
    (chroma_open : string -> string -> Outcome VectorStore)
    (faiss_load_local : string -> Outcome VectorStore)
    (similarity_search : VectorStore -> string -> nat -> Outcome (list Document))
    (documents_config : DocumentsConfig)
    (self self' : RAGSystem Document VectorStore)
    (status : string) (events : list BuildEvent) :
  initialize_or_load rglob path_str run_loader split_documents
    chroma_from_documents faiss_from_documents faiss_save_local
    chroma_open faiss_load_local documents_config self
  = (Return status, self', events) ->
  exists vs,
    vector_store self' = Some vs
    /\ forall query k,
         retrieve_relevant_documents similarity_search self' query k
         = similarity_search vs query k.
Proof.
  intro H.
  assert (Hvs : exists vs, vector_store self' = Some vs).
  { unfold initialize_or_load in H.
    destruct (load_existing_cases _ _ chroma_open faiss_load_local self)
      as [[vs E] | E]; rewrite E in H.
    - injection H as _ <- _. now exists vs.
    - destruct (load_documents _ _ _ documents_config self) as [[n|e] self2];
        [|discriminate].
      destruct (create_vector_store _ _ _ _ self2) as [[[u|e] self3] evs] eqn:C;
        [|discriminate].
      injection H as _ <- _. destruct u.
      pose proof (create_vector_store_cases _ _ split_documents
                    chroma_from_documents faiss_from_documents faiss_save_local
                    self2) as K.
      rewrite C in K. now destruct K as (_ & _ & _ & Hvs). }
  destruct Hvs as [vs Hvs]. exists vs. split; [exact Hvs|].
  intros query k. unfold retrieve_relevant_documents. now rewrite Hvs.
Qed.

Lemma initialize_or_load_success_witness :
  exists vs,
    Some 5 = Some vs
    /\ forall query k,
         retrieve_relevant_documents (fun (_ : nat) q _ => Return [q])
           {| vector_config := {| store_type := None; chunk_size := None;
                                  chunk_overlap := None; persist_directory := None;
                                  collection_name := None |};
              vector_store := Some 5;
              documents := @nil string |} query k
         = Return [query].
Proof.
  exact (initialize_or_load_success string nat
           (fun _ => None) (fun p => p) (fun _ path => Return [path])
           (fun _ _ docs => Return docs)
           (fun docs _ _ => Return (List.length docs))
           (fun docs => Return (List.length docs))
           (fun _ _ => Return tt)
           (fun _ _ => Return 5) (fun _ => Return 6)
           (fun _ q _ => Return [q])
           {| user_guides_path := None; supported_formats := None |}
           {| vector_config := {| store_type := None; chunk_size := None;
                                  chunk_overlap := None; persist_directory := None;
                                  collection_name := None |};
              vector_store := None;
              documents := [] |}
           _ "Loaded existing vector store" [] eq_refl).
Defined.

(** X14. With a vector-store type other than chromadb and faiss (compared
    in lower case) [initialize_or_load] never returns: nothing can be
    attached, and the build that follows raises at the latest when it
    comes to choosing the index.  The object is left without the store it
    did not have. *)
Theorem initialize_or_load_unsupported_type
    (Document VectorStore : Type)
    (rglob : string -> option (list FileEntry))
    (path_str : string -> string)
    (run_loader : Loader -> string -> Outcome (list Document))
    (split_documents : Z -> Z -> list Document -> Outcome (list Document))
    (chroma_from_documents : list Document -> string -> string -> Outcome VectorStore)
    (faiss_from_documents : list Document -> Outcome VectorStore)
    (faiss_save_local : VectorStore -> string -> Outcome unit)
    (chroma_open : string -> string -> Outcome VectorStore)
    (faiss_load_local : string -> Outcome VectorStore)
    (documents_config : DocumentsConfig)
    (self : RAGSystem Document VectorStore) :
  lower (Rag.get (store_type (vector_config self)) "chromadb") <> "chromadb" ->
  lower (Rag.get (store_type (vector_config self)) "chromadb") <> "faiss" ->
  exists e self' events,
    initialize_or_load rglob path_str run_loader split_documents
      chroma_from_documents faiss_from_documents faiss_save_local
      chroma_open faiss_load_local documents_config self
    = (Raise e, self', events)
    /\ vector_store self' = vector_store self.
Proof.
  intros Hc Hf.
  apply String.eqb_neq in Hc, Hf.
  unfold initialize_or_load, load_existing_vector_store. rewrite Hc, Hf.
  unfold load_documents.
  destruct (rglob _) as [entries|]; [|eauto 6].
  unfold create_vector_store. cbn [documents vector_config].
  destruct (fold_left _ entries []) as [|doc docs]; [eauto 6|].
  destruct (split_documents _ _ _); [|eauto 6].
  rewrite Hc, Hf. eauto 6.
Qed.

Lemma initialize_or_load_unsupported_type_witness :
  exists e self' events,
    initialize_or_load (fun _ => Some [ {| file_path := "a.txt"; suffix := ".txt";
                                           is_file := true |} ])
      (fun p => p) (fun _ path => Return [path])
      (fun _ _ docs => Return docs)
      (fun docs _ _ => Return (List.length docs))
      (fun docs => Return (List.length docs))
      (fun _ _ => Return tt)
      (fun _ _ => Return 5) (fun _ => Return 6)
      {| user_guides_path := None; supported_formats := None |}
      {| vector_config := {| store_type := Some "Pinecone"; chunk_size := None;
                             chunk_overlap := None; persist_directory := None;
                             collection_name := None |};
         vector_store := None;
         documents := [] |}
    = (Raise e, self', events)
    /\ vector_store self' = None.
Proof.
  apply (initialize_or_load_unsupported_type string nat); discriminate.
Defined.

(** ** Retrieval context *)

Lemma context_loop {Document : Type} (part : nat -> Document -> string)
    (docs : list Document) (start : nat) (parts : list string) :
  fold_left (fun acc id => (acc ++ [part (fst id) (snd id)])%list)
            (enumerate_from start docs) parts
  = (parts ++ map (fun id => part (fst id) (snd id))
                  (combine (seq start (List.length docs)) docs))%list.
Proof.
  revert start parts; induction docs as [|d docs IH]; intros start parts; simpl.
  - now rewrite app_nil_r.
  - rewrite IH, <- app_assoc. reflexivity.
Qed.

(** X15. Without a vector store [get_context_for_query] raises the
    not-initialized [ValueError], and a failing search is passed on.
    Otherwise the context is one block per retrieved chunk, in ranking
    order and numbered from 1: [[Source i: source]] (Unknown when the chunk
    has no source), a newline and the chunk's text; the blocks are
    separated by an empty line, and no chunk gives the empty text. *)
Theorem get_context_layout
    (Document VectorStore : Type)
    (similarity_search : VectorStore -> string -> nat -> Outcome (list Document))
    (page_content : Document -> string)
    (metadata_source : Document -> option string)
    (self : RAGSystem Document VectorStore) (query : string) (k : nat) :
  match vector_store self with
  | None =>
      get_context_for_query similarity_search page_content metadata_source
        self query k = Raise (ValueError not_initialized_message)
  | Some vs =>
      match similarity_search vs query k with
      | Raise e =>
          get_context_for_query similarity_search page_content metadata_source
            self query k = Raise e
      | Return docs =>
          get_context_for_query similarity_search page_content metadata_source
            self query k
          = Return (join (String LF (String LF ""))
                      (map (fun id => "[Source " ++ str_of_nat (fst id) ++ ": "
                                        ++ Rag.get (metadata_source (snd id)) "Unknown"
                                        ++ "]" ++ String LF (page_content (snd id)))
                           (combine (seq 1 (List.length docs)) docs)))
      end
  end.
Proof.
  unfold get_context_for_query, retrieve_relevant_documents.
  destruct (vector_store self) as [vs|]; [|reflexivity].
  destruct (similarity_search vs query k) as [docs|e]; [|reflexivity].
  rewrite (context_loop (context_part page_content metadata_source)).
  reflexivity.
Qed.

Example context_two_chunks :
  get_context_for_query (fun (_ : unit) _ _ => Return [("a.txt", "Open the menu."); ("", "Press export.")])
    snd (fun d => if String.eqb (fst d) "" then None else Some (fst d))
    {| vector_config := {| store_type := None; chunk_size := None;
                           chunk_overlap := None; persist_directory := None;
                           collection_name := None |};
       vector_store := Some tt;
       documents := [] |} "How do I export?" 3
  = Return ("[Source 1: a.txt]" ++ String LF ("Open the menu." ++ String LF (String LF
            ("[Source 2: Unknown]" ++ String LF "Press export.")))).
Proof. reflexivity. Qed.

(** ** Occurrences and stripping *)

Lemma no_space_lower (s : string) : no_space (lower s) = no_space s.
Proof.
  induction s as [|c t IH]; [reflexivity|].
  unfold lower in *. simpl. now rewrite is_space_lower_char, IH.
Qed.

Lemma ci_eq_shape (a b : string) :
  ci_eq a b -> no_space a = no_space b /\ (a = "" <-> b = "").
Proof.
  unfold ci_eq. intro H. split.
  - now rewrite <- (no_space_lower a), H, no_space_lower.
  - destruct a, b; simpl in H; try discriminate; split; auto; discriminate.
Qed.

Lemma lstrip_keeps (pre mid post : string) :
  no_lead (mid ++ post) = true -> mid <> "" ->
  exists pre', lstrip (pre ++ mid ++ post) = pre' ++ mid ++ post.
Proof.
  intros Hlead Hmid. induction pre as [|c pre IH].
  - exists "". simpl. now apply lstrip_no_lead.
  - change (String c pre ++ mid ++ post) with (String c (pre ++ mid ++ post)).
    cbn [lstrip]. destruct (is_space c); [exact IH|].
    now exists (String c pre).
Qed.

Lemma rstrip_keeps_head (mid post : string) :
  no_space mid = true -> mid <> "" ->
  exists w, rstrip (mid ++ post) = mid ++ w.
Proof.
  induction mid as [|c mid IH]; [intros _ H; now elim H|].
  intros Hns _. cbn [no_space] in Hns. apply andb_true_iff in Hns as [Hc Hns].
  apply negb_true_iff in Hc.
  change (String c mid ++ post) with (String c (mid ++ post)). cbn [rstrip].
  destruct mid as [|d mid].
  - simpl. destruct (rstrip post) as [|x r].
    + rewrite Hc. now exists "".
    + now exists (String x r).
  - destruct (IH Hns ltac:(discriminate)) as [w ->].
    now exists w.
Qed.

Lemma rstrip_app (pre u : string) :
  rstrip u <> "" -> rstrip (pre ++ u) = pre ++ rstrip u.
Proof.
  intro Hu. induction pre as [|c pre IH]; [reflexivity|].
  change (String c pre ++ u) with (String c (pre ++ u)). cbn [rstrip].
  rewrite IH. destruct (pre ++ rstrip u) eqn:E; [|simpl; now rewrite E].
  destruct pre; simpl in E; [now elim Hu | discriminate].
Qed.

(** Stripping a text neither adds nor removes an occurrence of a word
    without whitespace. *)
Lemma ci_substring_strip (kw s : string) :
  no_space kw = true -> kw <> "" ->
  (ci_substring kw (strip s) <-> ci_substring kw s).
Proof.
  intros Hns Hne. split.
  - apply ci_substring_slice, strip_slice.
  - intros (pre & mid & post & -> & Hmid).
    destruct (ci_eq_shape _ _ Hmid) as [Hs He].
    assert (Hmns : no_space mid = true) by congruence.
    assert (Hmne : mid <> "") by (intro E; apply Hne, He, E).
    assert (Hlead : no_lead (mid ++ post) = true).
    { destruct mid as [|c mid]; [now elim Hmne|]. simpl in *.
      now apply andb_true_iff in Hmns as [-> _]. }
    destruct (lstrip_keeps pre mid post Hlead Hmne) as [pre' Hl].
    destruct (rstrip_keeps_head mid post Hmns Hmne) as [w Hr].
    unfold strip. rewrite Hl, rstrip_app, Hr.
    + now exists pre', mid, w.
    + rewrite Hr. destruct mid; [now elim Hmne | discriminate].
Qed.

(** ** Classification by the generative model *)

(** X16. When the model replies in ASCII characters, the reply decides,
    whatever the case of its letters and the whitespace around it: a reply
    that mentions USER_GUIDE gives USER_GUIDE, even when it also mentions
    CONTRACT; otherwise one that mentions CONTRACT gives CONTRACT_INFO; any
    other reply gives GENERAL.  When the call raises, the answer is the one
    of the keyword classifier. *)
Theorem classify_intent_with_llm_rule
    (llm_classification : string -> Outcome string)
    (self : CustomerServiceChatbot) (query : string) :
  match llm_classification query with
  | Raise _ =>
      classify_intent_with_llm llm_classification self query
      = classify_intent (intent_keywords self) query
  | Return reply =>
      is_ascii reply = true ->
      (ci_substring "USER_GUIDE" reply ->
       classify_intent_with_llm llm_classification self query = USER_GUIDE)
      /\ (~ ci_substring "USER_GUIDE" reply -> ci_substring "CONTRACT" reply ->
          classify_intent_with_llm llm_classification self query = CONTRACT_INFO)
      /\ (~ ci_substring "USER_GUIDE" reply -> ~ ci_substring "CONTRACT" reply ->
          classify_intent_with_llm llm_classification self query = GENERAL)
  end.
Proof.
  unfold classify_intent_with_llm.
  destruct (llm_classification query) as [reply|e]; [|reflexivity].
  intros _.
  assert (Hu : py_in "USER_GUIDE" (upper (strip reply)) = true
               <-> ci_substring "USER_GUIDE" reply).
  { rewrite (py_in_upper_spec "USER_GUIDE" (strip reply) eq_refl).
    apply ci_substring_strip; [reflexivity | discriminate]. }
  assert (Hc : py_in "CONTRACT" (upper (strip reply)) = true
               <-> ci_substring "CONTRACT" reply).
  { rewrite (py_in_upper_spec "CONTRACT" (strip reply) eq_refl).
    apply ci_substring_strip; [reflexivity | discriminate]. }
  destruct (py_in "USER_GUIDE" (upper (strip reply))).
  - repeat split; intros; auto; exfalso; tauto.
  - destruct (py_in "CONTRACT" (upper (strip reply))).
    + repeat split; intros; auto; exfalso.
      * assert (false = true) by tauto. discriminate.
      * tauto.
    + repeat split; intros; auto; exfalso.
      * assert (false = true) by tauto. discriminate.
      * assert (false = true) by tauto. discriminate.
Qed.

Lemma classify_intent_with_llm_rule_witness :
  classify_intent_with_llm (fun _ => Return "  Category: contract_info ")
    {| intent_keywords := {| user_guide := ["export"]; contract := [] |};
       memory := None |}
    "How do I export my contract?" = CONTRACT_INFO.
Proof.
  apply (proj1 (proj2 (classify_intent_with_llm_rule
                         (fun _ => Return "  Category: contract_info ")
                         {| intent_keywords := {| user_guide := ["export"]; contract := [] |};
                            memory := None |}
                         "How do I export my contract?" eq_refl))).
  - intro H. apply (py_in_upper_spec "USER_GUIDE" _ eq_refl) in H.
    vm_compute in H. discriminate.
  - exists "  Category: ", "contract", "_info ". split; reflexivity.
Defined.

(** ** The handlers *)

(** X17. When the model's statement, once cleaned, contains a denylisted
    keyword in any casing, the contract handler answers with the apology
    text ending in the unsafe-operations message.  No database backend is
    used and the model is not asked for an answer. *)
Theorem contract_query_blocked
    (Engine Db LLM Document VectorStore : Type)
    (run_chain : LLM -> Db -> string -> Outcome ChainOutput)
    (connection_execute : Engine -> string -> Outcome (list (Row Value)))
    (str : Value -> string) (not_a_string : PyExc)
    (llm_invoke : LLM -> list Message -> Outcome string)
    (parts : Components Engine Db LLM Document VectorStore)
    (d : Db) (query raw kw : string) :
  db (sql_system parts) = Some d ->
  run_chain (llm parts) d query = Return (Text raw) ->
  In kw unsafe_keywords -> ci_substring kw (cleanup raw) ->
  handle_contract_query run_chain connection_execute str not_a_string llm_invoke
    parts query
  = ("I apologize, but I encountered an error while looking up your contract information. Please contact our support team for assistance. Error: Query contains unsafe operations (INSERT, UPDATE, DELETE, DROP)",
     []).
Proof.
  intros Hdb Hchain Hin Hocc.
  assert (Hunsafe : _is_safe_query (cleanup raw) = false)
    by (apply is_safe_query_false_iff; eauto).
  unfold handle_contract_query, query_and_format, natural_language_to_sql,
    execute_query.
  rewrite Hdb, Hchain, Hunsafe. reflexivity.
Qed.

Lemma contract_query_blocked_witness :
  handle_contract_query
    (fun (_ : unit) (_ : unit) _ => Return (Text "```sql
DELETE FROM contracts WHERE customer_name = 'ACME Corp';
```"))
    (fun (_ : unit) _ => Return [])
    (fun _ => "?") (OtherException "not a string")
    (fun _ _ => Return "Done.")
    (Build_Components (Document := unit) (VectorStore := unit) tt
       {| vector_config := {| store_type := None; chunk_size := None;
                              chunk_overlap := None; persist_directory := None;
                              collection_name := None |};
          vector_store := None; documents := [] |}
       (Build_SQLQuerySystem unit unit (Some tt) (Some tt) "") "Be polite.")
    "Please delete my contract"
  = ("I apologize, but I encountered an error while looking up your contract information. Please contact our support team for assistance. Error: Query contains unsafe operations (INSERT, UPDATE, DELETE, DROP)",
     []).
Proof.
  apply (contract_query_blocked unit unit unit unit unit _ _ _ _ _ _ tt
           "Please delete my contract"
           "```sql
DELETE FROM contracts WHERE customer_name = 'ACME Corp';
```" "DELETE").
  - reflexivity.
  - reflexivity.
  - simpl. tauto.
  - exists "", "DELETE", " FROM contracts WHERE customer_name = 'ACME Corp';".
    split; reflexivity.
Defined.

(** X18. A question classified as a user-guide question, asked while the
    RAG system has no vector store, fails with the not-initialized
    [ValueError]: the model is not called, and the chatbot, its memory
    included, is as before. *)
Theorem user_guide_query_without_index
    (Engine Db LLM Document VectorStore : Type)
    (run_chain : LLM -> Db -> string -> Outcome ChainOutput)
    (connection_execute : Engine -> string -> Outcome (list (Row Value)))
    (str : Value -> string) (not_a_string : PyExc)
    (similarity_search : VectorStore -> string -> nat -> Outcome (list Document))
    (page_content : Document -> string)
    (metadata_source : Document -> option string)
    (llm_invoke : LLM -> list Message -> Outcome string)
    (llm_classification : string -> Outcome string)
    (parts : Components Engine Db LLM Document VectorStore)
    (self : CustomerServiceChatbot) (query : string) :
  vector_store (rag_system parts) = None ->
  classify_intent (intent_keywords self) query = USER_GUIDE ->
  handle_user_guide_query similarity_search page_content metadata_source
    llm_invoke parts query
  = (Raise (ValueError not_initialized_message), [])
  /\ process run_chain connection_execute str not_a_string similarity_search
       page_content metadata_source llm_invoke llm_classification
       parts self query false
     = (Raise (ValueError not_initialized_message), self).
Proof.
  intros Hvs Hintent.
  assert (H : handle_user_guide_query similarity_search page_content
                metadata_source llm_invoke parts query
              = (Raise (ValueError not_initialized_message), [])).
  { unfold handle_user_guide_query, get_context_for_query,
      retrieve_relevant_documents. now rewrite Hvs. }
  split; [exact H|].
  unfold process, process_query. rewrite Hintent, H. reflexivity.
Qed.

Lemma user_guide_query_without_index_witness :
  process (Engine := unit) (Db := unit)
    (fun (_ : unit) _ _ => Return NonText) (fun _ _ => Return [])
    (fun _ => "?") (OtherException "not a string")
    (fun (_ : unit) _ _ => Return (@nil string)) (fun d => d) (fun _ => None)
    (fun _ _ => Return "Here is how.") (fun _ => Return "USER_GUIDE")
    (Build_Components tt
       {| vector_config := {| store_type := None; chunk_size := None;
                              chunk_overlap := None; persist_directory := None;
                              collection_name := None |};
          vector_store := None; documents := [] |}
       (Build_SQLQuerySystem unit unit None None "") "")
    {| intent_keywords := {| user_guide := ["export"]; contract := ["contract"] |};
       memory := Some {| k := 10; messages := [] |} |}
    "How do I export a report?" false
  = (Raise (ValueError not_initialized_message),
     {| intent_keywords := {| user_guide := ["export"]; contract := ["contract"] |};
        memory := Some {| k := 10; messages := [] |} |}).
Proof.
  eapply proj2.
  apply (user_guide_query_without_index unit unit unit string unit); reflexivity.
Defined.

(** ** Clearing and disabling the memory *)

Section HistoryFacts.

Variable llm_classification : string -> Outcome string.
Variable handle_user_guide_query : string -> Outcome string.
Variable handle_contract_query : string -> string.
Variable handle_general_query : string -> Outcome string.

(** The view of a run that started with nothing stored. *)
Lemma history_from_empty (self final : CustomerServiceChatbot) (w : Z)
    (queries : list string) (rs : list Response) :
  (0 < w)%Z ->
  memory self = Some {| k := w; messages := [] |} ->
  process_all llm_classification handle_user_guide_query
    handle_contract_query handle_general_query self queries = Some (rs, final) ->
  get_conversation_history final
  = flat_map exchange_entries (skipn (List.length rs - Z.to_nat w) rs).
Proof.
  intros Hw Hm Hrun.
  destruct (process_all_messages _ _ _ _ _ _ _ _ _ Hm Hrun) as [Hfinal _].
  simpl in Hfinal.
  unfold get_conversation_history. rewrite Hfinal.
  unfold load_history. cbn [k messages].
  destruct (Z.ltb_spec 0 w) as [_|]; [|lia].
  rewrite length_exchanges.
  replace (2 * List.length rs - Z.to_nat (w * 2))
    with (2 * (List.length rs - Z.to_nat w)) by lia.
  now rewrite skipn_exchanges, entries_of_exchanges.
Qed.

(** Without a memory object nothing is ever stored. *)
Lemma process_all_without_memory (queries : list string) :
  forall (self final : CustomerServiceChatbot) (rs : list Response),
    memory self = None ->
    process_all llm_classification handle_user_guide_query
      handle_contract_query handle_general_query self queries = Some (rs, final) ->
    memory final = None.
Proof.
  induction queries as [|q rest IH]; intros self final rs Hm Hrun;
    cbn [process_all] in Hrun.
  - now injection Hrun as <- <-.
  - destruct (process_query _ _ _ _ self q false) as [[r|e] self'] eqn:Hstep;
      [|discriminate].
    destruct (process_all _ _ _ _ self' rest) as [[rs' final']|] eqn:Hrest;
      [|discriminate].
    injection Hrun as <- <-.
    apply (IH self' final' rs'); [|exact Hrest].
    unfold process_query in Hstep.
    destruct (match classify_intent (intent_keywords self) q with
              | USER_GUIDE => handle_user_guide_query q
              | CONTRACT_INFO => Return (handle_contract_query q)
              | GENERAL => handle_general_query q
              end) as [answer|e]; [|discriminate].
    injection Hstep as <- <-. simpl. now rewrite Hm.
Qed.

End HistoryFacts.

(** X19. Clearing empties the history at once, whatever was stored, and
    the requests completed afterwards are windowed as on a new chatbot:
    with a window of [w >= 1] the history shows the most recent [w] of
    them and nothing from before the clearing. *)
Theorem clear_history_resets
    (llm_classification : string -> Outcome string)
    (handle_user_guide_query : string -> Outcome string)
    (handle_contract_query : string -> string)
    (handle_general_query : string -> Outcome string)
    (self final : CustomerServiceChatbot) (m : ConversationBufferWindowMemory)
    (queries : list string) (rs : list Response) :
  memory self = Some m -> (0 < k m)%Z ->
  process_all llm_classification handle_user_guide_query
    handle_contract_query handle_general_query (clear_history self) queries
  = Some (rs, final) ->
  get_conversation_history (clear_history self) = []
  /\ get_conversation_history final
     = flat_map exchange_entries (skipn (List.length rs - Z.to_nat (k m)) rs).
Proof.
  intros Hm Hk Hrun. split.
  - unfold get_conversation_history, clear_history, load_history. cbn [memory].
    rewrite Hm. cbn [option_map k messages].
    destruct (0 <? k m)%Z; [now rewrite skipn_nil | reflexivity].
  - apply (history_from_empty llm_classification handle_user_guide_query
             handle_contract_query handle_general_query
             (clear_history self) final (k m) queries rs Hk);
      [|exact Hrun].
    unfold clear_history. cbn [memory]. now rewrite Hm.
Qed.

Lemma clear_history_resets_witness :
  get_conversation_history
    (clear_history
       {| intent_keywords := {| user_guide := []; contract := [] |};
          memory := Some {| k := 1; messages := [HumanMessage "old"; AIMessage "reply"] |} |})
  = []
  /\ get_conversation_history
       {| intent_keywords := {| user_guide := []; contract := [] |};
          memory := Some {| k := 1; messages :=
            [HumanMessage "a"; AIMessage "ok"; HumanMessage "b"; AIMessage "ok"] |} |}
     = [ {| role := "user"; content := "b" |}; {| role := "assistant"; content := "ok" |} ].
Proof.
  exact (clear_history_resets
           (fun _ => Return "GENERAL") (fun _ => Return "ok") (fun _ => "ok")
           (fun _ => Return "ok")
           {| intent_keywords := {| user_guide := []; contract := [] |};
              memory := Some {| k := 1; messages := [HumanMessage "old"; AIMessage "reply"] |} |}
           _ {| k := 1; messages := [HumanMessage "old"; AIMessage "reply"] |}
           ["a"; "b"] _ eq_refl eq_refl eq_refl).
Defined.

(** X20. With conversation memory switched off in the configuration the
    chatbot has no memory object, and however many requests complete, the
    history stays empty. *)
Theorem disabled_memory_records_nothing
    (llm_classification : string -> Outcome string)
    (handle_user_guide_query : string -> Outcome string)
    (handle_contract_query : string -> string)
    (handle_general_query : string -> Outcome string)
    (chatbot_config : ChatbotConfig) (keywords : IntentKeywords)
    (final : CustomerServiceChatbot)
    (queries : list string) (rs : list Response) :
  enable_conversation_memory chatbot_config = Some false ->
  process_all llm_classification handle_user_guide_query
    handle_contract_query handle_general_query
    {| intent_keywords := keywords; memory := _initialize_memory chatbot_config |}
    queries = Some (rs, final) ->
  memory final = None /\ get_conversation_history final = [].
Proof.
  intros Hoff Hrun.
  assert (Hnone : memory final = None).
  { apply (process_all_without_memory llm_classification handle_user_guide_query
             handle_contract_query handle_general_query queries _ final rs)
      in Hrun; [exact Hrun|].
    unfold _initialize_memory. cbn [memory]. now rewrite Hoff. }
  split; [exact Hnone|].
  unfold get_conversation_history. now rewrite Hnone.
Qed.

Lemma disabled_memory_records_nothing_witness :
  memory {| intent_keywords := {| user_guide := []; contract := [] |}; memory := None |}
  = None
  /\ get_conversation_history
       {| intent_keywords := {| user_guide := []; contract := [] |}; memory := None |}
     = [].
Proof.
  exact (disabled_memory_records_nothing
           (fun _ => Return "GENERAL") (fun _ => Return "ok") (fun _ => "ok")
           (fun _ => Return "ok")
           {| enable_conversation_memory := Some false; max_history_length := Some 5%Z |}
           {| user_guide := []; contract := [] |}
           _ ["a"; "b"] _ eq_refl eq_refl).
Defined.

(** ** Configuration *)

Example substitute_set_and_unset :
  _substitute_string
    (fun name => if String.eqb name "DB_HOST" then Some "db.internal" else None)
    "postgresql://${DB_USER:bot}@${DB_HOST}:${DB_PORT:5432}/${DB_NAME}"
  = "postgresql://bot@db.internal:5432/".
Proof. reflexivity. Qed.

Example substitute_malformed :
  _substitute_string (fun _ => Some "x") "${} ${A:} ${B ${:${C}"
  = "${} ${A:} x".
Proof. reflexivity. Qed.

Lemma lookup_map {A B : Type} (f : A -> B) (key : string) (items : list (string * A)) :
  lookup key (map (fun kv => match kv with (k0, v) => (k0, f v) end) items)
  = option_map f (lookup key items).
Proof.
  induction items as [|[k0 v] items IH]; [reflexivity|].
  simpl. destruct (String.eqb key k0); [reflexivity | exact IH].
Qed.

(** X21. Reading a key path with [get] gives the value that the path
    leads to, and the caller's default when the path does not exist (a key
    is missing, or the path runs into something that is not a dict).
    After the environment substitution the same paths exist: reading gives
    what substitution makes of the value found at that path before it, and
    still the caller's default, untouched, when the path does not exist. *)
Theorem get_path_after_substitution
    (env : Env) (keys : list string) (config default : Cfg) :
  get_path config keys default
  = match find_path config keys with
    | Some v => v
    | None => default
    end
  /\ get_path (_substitute_env_vars env config) keys default
     = match find_path config keys with
       | Some v => _substitute_env_vars env v
       | None => default
       end.
Proof.
  revert config; induction keys as [|key rest IH]; intro config;
    [split; reflexivity|].
  destruct config; try (split; reflexivity).
  cbn [_substitute_env_vars get_path find_path]. rewrite lookup_map.
  destruct (lookup key items) as [v|]; [apply IH | split; reflexivity].
Qed.

Example get_missing_path_keeps_default :
  get_path (_substitute_env_vars (fun _ => Some "x")
              (CDict [("chatbot", CDict [("system_prompt", CStr "${PROMPT}")])]))
           ["chatbot"; "greeting"] (CStr "${A}")
  = CStr "${A}"
  /\ get_path (_substitute_env_vars (fun _ => Some "x")
                 (CDict [("chatbot", CDict [("system_prompt", CStr "${PROMPT}")])]))
              ["chatbot"; "system_prompt"] (CStr "${A}")
     = CStr "x".
Proof. split; reflexivity. Qed.

Lemma match_here_prefix (s : string) :
  String.prefix "${" s = false -> match_here s = None.
Proof.
  destruct s as [|c s]; [reflexivity|].
  destruct (Ascii.eqb_spec c "$") as [->|Hc].
  - destruct s as [|d t]; [reflexivity|].
    destruct (Ascii.eqb_spec d "{") as [->|Hd].
    + intro H. exfalso. revert H. simpl. destruct t; discriminate.
    + intros _. destruct d as [[] [] [] [] [] [] [] []]; try reflexivity.
      now elim Hd.
  - intros _. destruct c as [[] [] [] [] [] [] [] []]; try reflexivity.
    now elim Hc.
Qed.

(** X22. A text without the two characters dollar, brace in a row is
    not changed by the substitution, whatever the environment holds. *)
Theorem substitute_string_without_placeholder (env : Env) (value : string) :
  py_in "${" value = false -> _substitute_string env value = value.
Proof.
  unfold _substitute_string.
  induction value as [|c t IH]; [reflexivity|].
  cbn [py_in]. intro H. apply orb_false_iff in H as [Hp Ht].
  cbn [sub_from]. rewrite (match_here_prefix _ Hp). now rewrite (IH Ht).
Qed.

Lemma substitute_string_without_placeholder_witness :
  _substitute_string (fun _ => Some "secret") "price: $5 {net}" = "price: $5 {net}".
Proof.
  apply substitute_string_without_placeholder. reflexivity.
Defined.

Lemma span_stop (P : ascii -> bool) (a : string) (c : ascii) (b : string) :
  all_chars P a = true -> P c = false ->
  span P (a ++ String c b) = (a, String c b).
Proof.
  intros Ha Hc. induction a as [|x a IH]; simpl.
  - now rewrite Hc.
  - simpl in Ha. apply andb_true_iff in Ha as [Hx Ha].
    now rewrite Hx, (IH Ha).
Qed.

Lemma sub_from_skip (env : Env) (a b : string) (n : nat) :
  sub_from env (String.length a + n) (a ++ b) = sub_from env n b.
Proof.
  induction a as [|x a IH]; [reflexivity|]. simpl. exact IH.
Qed.

Lemma prefix_head (a c : ascii) (p s : string) :
  a <> c -> String.prefix (String a p) (String c s) = false.
Proof.
  intro H.
  change (String.prefix (String a p) (String c s))
    with (match ascii_dec a c with
          | left _ => String.prefix p s
          | right _ => false
          end).
  destruct (ascii_dec a c); [contradiction | reflexivity].
Qed.

Lemma sub_from_no_dollar (env : Env) (pre rest : string) :
  no_dollar pre = true ->
  sub_from env 0 (pre ++ rest) = pre ++ sub_from env 0 rest.
Proof.
  intro H. induction pre as [|c pre IH]; [reflexivity|].
  simpl in H. apply andb_true_iff in H as [Hc H].
  change (String c pre ++ rest) with (String c (pre ++ rest)).
  cbn [sub_from]. rewrite match_here_prefix.
  - now rewrite (IH H).
  - apply prefix_head. intros <-. discriminate Hc.
Qed.

Lemma length_append (a b : string) :
  String.length (a ++ b) = String.length a + String.length b.
Proof. induction a as [|x a IH]; simpl; [reflexivity | now rewrite IH]. Qed.

Lemma match_here_plain (name post : string) :
  name <> "" -> all_chars name_char name = true ->
  match_here (String "$" (String "{" (name ++ String "}" post)))
  = Some (name, None, 2 + String.length name + 1).
Proof.
  intros Hne Hall. unfold match_here.
  rewrite (span_stop name_char name "}" post Hall eq_refl).
  destruct name; [now elim Hne | reflexivity].
Qed.

Lemma match_here_default (name dflt post : string) :
  name <> "" -> all_chars name_char name = true ->
  dflt <> "" -> all_chars default_char dflt = true ->
  match_here (String "$" (String "{" (name ++ String ":" (dflt ++ String "}" post))))
  = Some (name, Some dflt,
          2 + String.length name + 1 + String.length dflt + 1).
Proof.
  intros Hne Hall Hdne Hdall. unfold match_here.
  rewrite (span_stop name_char name ":" _ Hall eq_refl).
  rewrite (span_stop default_char dflt "}" post Hdall eq_refl).
  destruct name; [now elim Hne|].
  destruct dflt; [now elim Hdne | reflexivity].
Qed.

Lemma sub_from_match (env : Env) (c : ascii) (t var_name : string)
    (group2 : option string) (len : nat) :
  match_here (String c t) = Some (var_name, group2, len) ->
  sub_from env 0 (String c t)
  = replacer env var_name group2 ++ sub_from env (len - 1) t.
Proof. intro H. cbn [sub_from]. now rewrite H. Qed.

(** X23. A placeholder for a variable, after text without a dollar sign,
    is replaced by the value of the variable; when the variable is not
    set, by the default written after the colon, and by nothing when no
    default is written.  The text after the placeholder is substituted
    on its own, and the value put in is not searched again.  (The name is
    not empty and has no closing brace and no colon; the default is not
    empty and has no closing brace.) *)
Theorem substitute_placeholder
    (env : Env) (pre name dflt post : string) :
  no_dollar pre = true ->
  name <> "" -> all_chars name_char name = true ->
  dflt <> "" -> all_chars default_char dflt = true ->
  _substitute_string env (pre ++ "${" ++ name ++ "}" ++ post)
  = pre ++ match env name with
           | Some v => v
           | None => ""
           end ++ _substitute_string env post
  /\ _substitute_string env (pre ++ "${" ++ name ++ ":" ++ dflt ++ "}" ++ post)
     = pre ++ match env name with
              | Some v => v
              | None => dflt
              end ++ _substitute_string env post.
Proof.
  intros Hpre Hne Hall Hdne Hdall. unfold _substitute_string. split.
  - rewrite (sub_from_no_dollar env pre _ Hpre). f_equal.
    change ("${" ++ name ++ "}" ++ post)
      with (String "$" (String "{" (name ++ String "}" post))).
    rewrite (sub_from_match env _ _ _ _ _ (match_here_plain name post Hne Hall)).
    unfold replacer. f_equal.
    replace (2 + String.length name + 1 - 1)
      with (String.length (String "{" (name ++ "}")) + 0)
      by (cbn [String.length]; rewrite length_append; cbn [String.length]; lia).
    replace (String "{" (name ++ String "}" post))
      with (String "{" (name ++ "}") ++ post)
      by (simpl; now rewrite append_assoc).
    apply sub_from_skip.
  - rewrite (sub_from_no_dollar env pre _ Hpre). f_equal.
    change ("${" ++ name ++ ":" ++ dflt ++ "}" ++ post)
      with (String "$" (String "{" (name ++ String ":" (dflt ++ String "}" post)))).
    rewrite (sub_from_match env _ _ _ _ _
               (match_here_default name dflt post Hne Hall Hdne Hdall)).
    unfold replacer. f_equal.
    replace (2 + String.length name + 1 + String.length dflt + 1 - 1)
      with (String.length (String "{" (name ++ ":" ++ dflt ++ "}")) + 0)
      by (cbn [String.length]; rewrite !length_append; cbn [String.length]; lia).
    replace (String "{" (name ++ String ":" (dflt ++ String "}" post)))
      with (String "{" (name ++ ":" ++ dflt ++ "}") ++ post)
      by (simpl; rewrite !append_assoc; simpl; now rewrite append_assoc).
    apply sub_from_skip.
Qed.

Lemma substitute_placeholder_witness :
  _substitute_string (fun _ => None) ("api_key: " ++ "${" ++ "OPENAI_API_KEY" ++ "}" ++ "")
  = "api_key: " ++ "" ++ ""
  /\ _substitute_string (fun _ => None)
       ("api_key: " ++ "${" ++ "OPENAI_API_KEY" ++ ":" ++ "none" ++ "}" ++ "")
     = "api_key: " ++ "none" ++ "".
Proof.
  apply (substitute_placeholder (fun _ => None) "api_key: " "OPENAI_API_KEY" "none" "");
    try reflexivity; discriminate.
Defined.

(** ** More on routing *)

Lemma positive_score_occurrence (keywords : list string) (query : string) :
  0 < keyword_score keywords (lower query) ->
  exists kw, In kw keywords /\ ci_substring kw query.
Proof.
  unfold keyword_score. rewrite list_sum_ones. intro H.
  destruct (filter (fun keyword => py_in (lower keyword) (lower query)) keywords)
    as [|kw rest] eqn:E; [simpl in H; lia|].
  assert (Hin : In kw (filter (fun keyword => py_in (lower keyword) (lower query))
                              keywords))
    by (rewrite E; now left).
  apply filter_In in Hin as [Hin Hocc].
  exists kw. split; [exact Hin | now apply py_in_lower_spec].
Qed.

(** ** Mock rows for mock queries *)

(** X25. In mock mode the rows answer the kind of question asked: a
    question about expiration gets the one row with the expiration date,
    otherwise one about modules or purchases gets the two module rows,
    otherwise one about pricing or cost gets the pricing row, and any other
    question gets the full contract row. *)
Theorem mock_rows_follow_question (question : string) :
  let q := lower question in
  _generate_mock_results (_generate_mock_sql question)
  = if py_in "expiration" q || py_in "expires" q
    then [ [("contract_id", VInt 12345);
            ("customer_name", VStr "ACME Corp");
            ("expiration_date", VStr "2024-12-31")] ]
    else if py_in "modules" q || py_in "purchased" q
    then [ [("customer_name", VStr "ACME Corp");
            ("module_name", VStr "Inventory Management");
            ("purchased_date", VStr "2023-01-15")];
           [("customer_name", VStr "ACME Corp");
            ("module_name", VStr "Reporting Suite");
            ("purchased_date", VStr "2023-03-22")] ]
    else if py_in "pricing" q || py_in "cost" q
    then [ [("customer_name", VStr "ACME Corp");
            ("pricing", VFloat 25000 1)] ]
    else [ [("contract_id", VInt 12345);
            ("customer_name", VStr "ACME Corp");
            ("expiration_date", VStr "2024-12-31");
            ("pricing", VFloat 25000 1);
            ("status", VStr "Active")] ].
Proof.
  intro q. unfold _generate_mock_sql. fold q.
  destruct (py_in "expiration" q || py_in "expires" q); [reflexivity|].
  destruct (py_in "modules" q || py_in "purchased" q); [reflexivity|].
  destruct (py_in "pricing" q || py_in "cost" q); reflexivity.
Qed.

(** * Properties over Unicode text *)

Local Open Scope list_scope.

(** ** Runs on concrete inputs *)

Example uni_cleanup_ascii :
  Uni.cleanup Uni.ascii_space Uni.ascii_ci_match
    (Uni.of_string "Here you go: ```sql select a from t ```")
  = Uni.of_string "select a from t".
Proof. vm_compute. reflexivity. Qed.

(** With the no-break space U+00A0 among the whitespace characters it ends
    a keyword like any other whitespace. *)
Example uni_cleanup_no_break_space :
  Uni.cleanup (fun c => Uni.ascii_space c || N.eqb c 160) Uni.ascii_ci_match
    (Uni.of_string "DELETE" ++ 160%N :: Uni.of_string "x DELETE y")%list
  = (Uni.of_string "DELETE" ++ 160%N :: Uni.of_string "x DELETE y")%list.
Proof. vm_compute. reflexivity. Qed.

Example uni_classify_tie :
  Uni.classify_intent Uni.ascii_lower
    {| Uni.user_guide := [Uni.of_string "export"];
       Uni.contract := [Uni.of_string "contract"] |}
    (Uni.of_string "Export my CONTRACT please") = USER_GUIDE.
Proof. vm_compute. reflexivity. Qed.

(** ** Contiguous parts of a text *)




(** ** Intent classification *)

Section UniClassify.

Variable lower : Uni.text -> Uni.text.




End UniClassify.





(** ** The cleanup pass *)

Lemma uni_find_from_sound (P : Uni.text -> bool) (s : Uni.text) (p : nat) :
  Uni.find_from P s = Some p ->
  P (skipn p s) = true /\ forall q, q < p -> P (skipn q s) = false.
Proof.
  revert p; induction s as [|c t IH]; intros p; cbn [Uni.find_from].
  - destruct (P []) eqn:E; [|discriminate].
    intros [= <-]. split; [exact E | intros q Hq; lia].
  - destruct (P (c :: t)) eqn:E.
    + intros [= <-]. split; [exact E | intros q Hq; lia].
    + destruct (Uni.find_from P t) as [p'|]; [|discriminate].
      intros [= <-]. destruct (IH p' eq_refl) as [Hp Hq]. split; [exact Hp|].
      intros [|q] Hlt; [exact E | apply Hq; lia].
Qed.

Lemma uni_find_from_complete (P : Uni.text -> bool) (s : Uni.text) (p : nat) :
  P (skipn p s) = true ->
  (forall q, q < p -> P (skipn q s) = false) ->
  Uni.find_from P s = Some p.
Proof.
  revert p; induction s as [|c t IH]; intros p Hp Hq; cbn [Uni.find_from].
  - rewrite skipn_nil in Hp. rewrite Hp.
    destruct p as [|p]; [reflexivity|].
    pose proof (Hq 0 (Nat.lt_0_succ p)) as H0. simpl in H0. congruence.
  - destruct p as [|p].
    + simpl in Hp. now rewrite Hp.
    + pose proof (Hq 0 (Nat.lt_0_succ p)) as H0. simpl in H0. rewrite H0.
      rewrite (IH p Hp); [reflexivity|].
      intros q Hlt. apply (Hq (S q)). lia.
Qed.

Section UniCleanup.

Variable is_space : N -> bool.
Variable ci_match : N -> N -> bool.

Lemma uni_rstrip_idem (s : Uni.text) : Uni.rstrip is_space (Uni.rstrip is_space s) = Uni.rstrip is_space s.
Proof.
  induction s as [|c t IH]; [reflexivity|].
  cbn [Uni.rstrip]. destruct (Uni.rstrip is_space t) as [|d r] eqn:E.
  - destruct (is_space c) eqn:Hc; [reflexivity|].
    cbn [Uni.rstrip]. now rewrite Hc.
  - cbn [Uni.rstrip] in IH |- *. cbn [Uni.rstrip]. now rewrite IH.
Qed.

Lemma uni_rstrip_tail (c : N) (t : Uni.text) :
  Uni.rstrip is_space (c :: t) = c :: t -> Uni.rstrip is_space t = t.
Proof.
  cbn [Uni.rstrip].
  destruct (Uni.rstrip is_space t) as [|d r] eqn:E.
  - destruct (is_space c); [discriminate|]. now intros [= <-].
  - now intros [= <-].
Qed.

Lemma uni_rstrip_skipn (p : nat) (s : Uni.text) :
  Uni.rstrip is_space s = s -> Uni.rstrip is_space (skipn p s) = skipn p s.
Proof.
  revert s; induction p as [|p IH]; intros s H; [exact H|].
  destruct s as [|c t]; [reflexivity|].
  simpl. apply IH. now apply uni_rstrip_tail with c.
Qed.

Lemma uni_no_lead_lstrip (s : Uni.text) : Uni.no_lead is_space (Uni.lstrip is_space s) = true.
Proof.
  induction s as [|c t IH]; [reflexivity|].
  cbn [Uni.lstrip]. destruct (is_space c) eqn:E; [exact IH|].
  simpl. now rewrite E.
Qed.

Lemma uni_lstrip_no_lead (s : Uni.text) : Uni.no_lead is_space s = true -> Uni.lstrip is_space s = s.
Proof.
  destruct s as [|c t]; [reflexivity|]. simpl.
  now destruct (is_space c).
Qed.

Lemma uni_no_lead_rstrip (s : Uni.text) :
  Uni.no_lead is_space s = true -> Uni.no_lead is_space (Uni.rstrip is_space s) = true.
Proof.
  destruct s as [|c t]; [reflexivity|]. cbn [Uni.no_lead Uni.rstrip].
  intro H. destruct (Uni.rstrip is_space t); [|exact H].
  apply negb_true_iff in H. rewrite H. simpl. now rewrite H.
Qed.

Lemma uni_strip_idem (s : Uni.text) : Uni.strip is_space (Uni.strip is_space s) = Uni.strip is_space s.
Proof.
  unfold Uni.strip.
  rewrite (uni_lstrip_no_lead (Uni.rstrip is_space (Uni.lstrip is_space s))).
  - apply uni_rstrip_idem.
  - apply uni_no_lead_rstrip, uni_no_lead_lstrip.
Qed.

Lemma uni_stripped_rstrip (s : Uni.text) : Uni.strip is_space s = s -> Uni.rstrip is_space s = s.
Proof.
  intro H. rewrite <- H at 1. unfold Uni.strip.
  rewrite uni_rstrip_idem. exact H.
Qed.

Lemma uni_remove_prefix_stripped (prefixes : list Uni.text) (s : Uni.text) :
  Uni.strip is_space s = s ->
  Uni.strip is_space (Uni.remove_prefix is_space prefixes s) = Uni.remove_prefix is_space prefixes s.
Proof.
  intro H. induction prefixes as [|x rest IH]; [exact H|].
  cbn [Uni.remove_prefix]. destruct (Uni.startswith x s);
    [apply uni_strip_idem | exact IH].
Qed.

(** Every step before the keyword search leaves the text stripped. *)
Lemma uni_before_extraction_stripped (raw : Uni.text) :
  Uni.strip is_space (Uni.before_extraction is_space raw) = Uni.before_extraction is_space raw.
Proof.
  unfold Uni.before_extraction. apply uni_remove_prefix_stripped.
  assert (H1 : Uni.strip is_space (Uni.after_marker is_space (Uni.strip is_space raw))
               = Uni.after_marker is_space (Uni.strip is_space raw)).
  { unfold Uni.after_marker. destruct (Uni.contains _ _); [|apply uni_strip_idem].
    destruct (Uni.split_after _ _); apply uni_strip_idem. }
  revert H1. generalize (Uni.after_marker is_space (Uni.strip is_space raw)) as s1.
  intros s1 H1.
  assert (H2 : Uni.strip is_space (Uni.remove_opening_fence is_space s1)
               = Uni.remove_opening_fence is_space s1).
  { unfold Uni.remove_opening_fence.
    destruct (Uni.startswith _ s1); [apply uni_strip_idem|].
    destruct (Uni.startswith _ s1); [apply uni_strip_idem | exact H1]. }
  revert H2. generalize (Uni.remove_opening_fence is_space s1) as s2. intros s2 H2.
  unfold Uni.remove_closing_fence.
  destruct (Uni.endswith _ s2); [apply uni_strip_idem | exact H2].
Qed.

Lemma uni_extract_statement_first (before after : list Uni.text)
    (kw s : Uni.text) (p : nat) :
  (forall kw', In kw' before -> Uni.re_search_kw is_space ci_match kw' s = None) ->
  Uni.re_search_kw is_space ci_match kw s = Some p ->
  Uni.extract_statement is_space ci_match (before ++ kw :: after) s
  = Uni.strip is_space (skipn p s).
Proof.
  intros Hnone Hkw.
  induction before as [|b before IH]; cbn [app Uni.extract_statement].
  - now rewrite Hkw.
  - rewrite (Hnone b (or_introl eq_refl)). apply IH.
    intros kw' Hin. apply Hnone. now right.
Qed.

(** What the keyword loop returns: the text as it came, or the stripped
    rest from the leftmost match of the first keyword that matches. *)
Lemma uni_extract_statement_cases (keywords : list Uni.text) (s : Uni.text) :
  (Uni.extract_statement is_space ci_match keywords s = s
   /\ forall kw, In kw keywords -> Uni.re_search_kw is_space ci_match kw s = None)
  \/ (exists kw p, In kw keywords
                   /\ Uni.re_search_kw is_space ci_match kw s = Some p
                   /\ Uni.extract_statement is_space ci_match keywords s
                      = Uni.strip is_space (skipn p s)).
Proof.
  induction keywords as [|k rest IH]; cbn [Uni.extract_statement].
  - left. split; [reflexivity | intros kw []].
  - destruct (Uni.re_search_kw is_space ci_match k s) as [p|] eqn:E.
    + right. exists k, p. repeat split; auto. now left.
    + destruct IH as [[H1 H2] | (kw & p & Hin & Hs & Hr)].
      * left. split; [exact H1|]. intros kw [<-|Hin]; auto.
      * right. exists kw, p. repeat split; auto. now right.
Qed.

(** Where the earliest keyword followed by whitespace stands, the search
    for that very keyword stops. *)
Lemma uni_earliest_is_leftmost (kw s : Uni.text) (p : nat) :
  In kw Uni.sql_keywords ->
  Uni.first_keyword_ws_pos is_space ci_match s = Some p ->
  Uni.kw_ws_at is_space ci_match kw (skipn p s) = true ->
  Uni.re_search_kw is_space ci_match kw s = Some p.
Proof.
  intros Hin Hfirst Hat.
  destruct (uni_find_from_sound _ _ _ Hfirst) as [_ Hbefore].
  apply uni_find_from_complete; [exact Hat|].
  intros q Hq. specialize (Hbefore q Hq).
  unfold Uni.keyword_ws_at in Hbefore.
  destruct (Uni.kw_ws_at is_space ci_match kw (skipn q s)) eqn:E; [|reflexivity].
  assert (existsb (fun kw0 => Uni.kw_ws_at is_space ci_match kw0 (skipn q s))
                  Uni.sql_keywords = true)
    by (apply existsb_exists; eauto).
  congruence.
Qed.

(** A text that starts with a keyword starts with a character matching
    the keyword's first letter. *)
Lemma uni_kw_ws_at_head (kw s : Uni.text) :
  Uni.kw_ws_at is_space ci_match kw s = true -> kw <> [] ->
  exists k kw' c s', kw = k :: kw' /\ s = c :: s' /\ ci_match k c = true.
Proof.
  intros H Hne. destruct kw as [|k kw']; [now elim Hne|].
  destruct s as [|c s']; [discriminate H|].
  unfold Uni.kw_ws_at in H. cbn [Uni.ci_strip_prefix] in H.
  destruct (ci_match k c) eqn:E; [|discriminate H].
  now exists k, kw', c, s'.
Qed.

End UniCleanup.

(** C3 (as the code has it).  Whatever characters count as whitespace and
    whatever a letter matches under IGNORECASE: let the text that reaches
    the keyword search contain a recognized keyword followed by
    whitespace, let [p] be the earliest position of such an occurrence and
    [kw] its keyword, and let no keyword listed before [kw] occur followed
    by whitespace.  Then the cleanup pass returns the text from [p] to its
    end, stripped, dropping all that precedes; nothing is stripped, and the
    result is that text itself, when its first character is not
    whitespace. *)
Theorem cleanup_keeps_from_earliest_keyword
    (is_space : N -> bool) (ci_match : N -> N -> bool)
    (raw : Uni.text) (p : nat) (kw : Uni.text) (before after : list Uni.text) :
  Uni.sql_keywords = before ++ kw :: after ->
  Uni.first_keyword_ws_pos is_space ci_match (Uni.before_extraction is_space raw)
  = Some p ->
  Uni.kw_ws_at is_space ci_match kw (skipn p (Uni.before_extraction is_space raw))
  = true ->
  (forall kw', In kw' before ->
     Uni.re_search_kw is_space ci_match kw' (Uni.before_extraction is_space raw)
     = None) ->
  Uni.cleanup is_space ci_match raw
  = Uni.strip is_space (skipn p (Uni.before_extraction is_space raw))
  /\ (Uni.no_lead is_space (skipn p (Uni.before_extraction is_space raw)) = true ->
      Uni.cleanup is_space ci_match raw
      = skipn p (Uni.before_extraction is_space raw)).
Proof.
  intros Hlist Hfirst Hat Hnone.
  assert (Hin : In kw Uni.sql_keywords)
    by (rewrite Hlist; apply in_or_app; right; now left).
  pose proof (uni_earliest_is_leftmost _ _ _ _ _ Hin Hfirst Hat) as Hsearch.
  assert (E : Uni.cleanup is_space ci_match raw
              = Uni.strip is_space (skipn p (Uni.before_extraction is_space raw))).
  { unfold Uni.cleanup. rewrite Hlist.
    apply (uni_extract_statement_first is_space ci_match before after kw _ p
             Hnone Hsearch). }
  split; [exact E|].
  intro Hlead. rewrite E. unfold Uni.strip.
  rewrite (uni_lstrip_no_lead _ _ Hlead).
  apply uni_rstrip_skipn, uni_stripped_rstrip, uni_before_extraction_stripped.
Qed.

Lemma cleanup_keeps_from_earliest_keyword_witness :
  Uni.cleanup Uni.ascii_space Uni.ascii_ci_match
    (Uni.of_string "Answer: delete from contracts where id = 7")
  = Uni.of_string "delete from contracts where id = 7".
Proof.
  refine (proj2 (cleanup_keeps_from_earliest_keyword
                   Uni.ascii_space Uni.ascii_ci_match
                   (Uni.of_string "Answer: delete from contracts where id = 7")
                   8 (Uni.of_string "DELETE")
                   (map Uni.of_string ["SELECT"; "INSERT"; "UPDATE"])
                   (map Uni.of_string ["WITH"; "CREATE"; "DROP"; "ALTER"])
                   eq_refl eq_refl eq_refl _) eq_refl).
  intros kw' [<- | [<- | [<- | []]]]; reflexivity.
Defined.

(** The ASCII tables let no whitespace character match the first letter
    of a keyword. *)
Lemma ascii_keyword_heads (kw : Uni.text) (k : N) (rest : Uni.text) (c : N) :
  In kw Uni.sql_keywords -> kw = k :: rest ->
  Uni.ascii_ci_match k c = true -> Uni.ascii_space c = false.
Proof.
  intros Hin Hkw Hm. cbv in Hin.
  unfold Uni.ascii_ci_match in Hm. apply N.eqb_eq in Hm.
  assert (Hc : forall n, (97 <= n <= 122)%N -> Uni.ascii_lower_char c = n ->
                         Uni.ascii_space c = false).
  { intros n Hn Hl. unfold Uni.ascii_lower_char in Hl. unfold Uni.ascii_space.
    destruct ((65 <=? c) && (c <=? 90))%N eqn:E.
    - apply andb_true_iff in E as [E1 E2].
      apply N.leb_le in E1, E2.
      destruct (N.leb_spec 9 c), (N.leb_spec c 13), (N.leb_spec 28 c),
        (N.leb_spec c 32); simpl; try reflexivity; lia.
    - subst n.
      destruct (N.leb_spec 9 c), (N.leb_spec c 13), (N.leb_spec 28 c),
        (N.leb_spec c 32); simpl; try reflexivity; lia. }
  repeat (destruct Hin as [<-|Hin];
          [ injection Hkw as Hk _; subst k;
            refine (Hc _ _ (eq_sym Hm)); vm_compute; split; discriminate |]).
  contradiction.
Qed.

(** X3. Provided no whitespace character matches the first letter of a
    keyword under IGNORECASE: whenever a recognized keyword followed by
    whitespace occurs in the text that reaches the keyword search, the
    cleaned statement begins with a recognized keyword followed by
    whitespace. *)
Theorem cleanup_starts_with_keyword
    (is_space : N -> bool) (ci_match : N -> N -> bool)
    (raw : Uni.text) (p : nat) :
  (forall kw k rest c, In kw Uni.sql_keywords -> kw = k :: rest ->
                       ci_match k c = true -> is_space c = false) ->
  Uni.first_keyword_ws_pos is_space ci_match (Uni.before_extraction is_space raw)
  = Some p ->
  Uni.keyword_ws_at is_space ci_match (Uni.cleanup is_space ci_match raw) = true.
Proof.
  intros Htable Hfirst. unfold Uni.cleanup.
  destruct (uni_extract_statement_cases is_space ci_match Uni.sql_keywords
              (Uni.before_extraction is_space raw))
    as [[_ Hnone] | (kw & q & Hin & Hs & ->)].
  - destruct (uni_find_from_sound _ _ _ Hfirst) as [Hat _].
    unfold Uni.keyword_ws_at in Hat.
    apply existsb_exists in Hat as (kw & Hin & Hkw).
    pose proof (uni_earliest_is_leftmost _ _ _ _ _ Hin Hfirst Hkw) as Hs.
    rewrite (Hnone kw Hin) in Hs. discriminate.
  - destruct (uni_find_from_sound _ _ _ Hs) as [Hat _].
    assert (Hne : kw <> []).
    { unfold Uni.sql_keywords in Hin. simpl in Hin.
      repeat (destruct Hin as [<-|Hin]; [discriminate|]). contradiction. }
    destruct (uni_kw_ws_at_head _ _ _ _ Hat Hne)
      as (k & kw' & c & s' & Ek & Es & Hm).
    assert (Hlead : Uni.no_lead is_space
                      (skipn q (Uni.before_extraction is_space raw)) = true).
    { rewrite Es. simpl. now rewrite (Htable kw k kw' c Hin Ek Hm). }
    unfold Uni.strip. rewrite (uni_lstrip_no_lead _ _ Hlead).
    rewrite (uni_rstrip_skipn _ q _
               (uni_stripped_rstrip _ _ (uni_before_extraction_stripped _ raw))).
    unfold Uni.keyword_ws_at. apply existsb_exists. eauto.
Qed.

Lemma cleanup_starts_with_keyword_witness :
  Uni.keyword_ws_at Uni.ascii_space Uni.ascii_ci_match
    (Uni.cleanup Uni.ascii_space Uni.ascii_ci_match
       (Uni.of_string "Here you are: WITH t AS (SELECT 1) SELECT * FROM t"))
  = true.
Proof.
  apply (cleanup_starts_with_keyword Uni.ascii_space Uni.ascii_ci_match
           (Uni.of_string "Here you are: WITH t AS (SELECT 1) SELECT * FROM t") 14).
  - exact ascii_keyword_heads.
  - reflexivity.
Defined.
